(** * Personality-insights backend: the profile-tree core of [app.js]

    A shallow embedding of the tree flattener
    ([parseDescriptionFromWatsonResponse], [parseChildren],
    [createChildFromJSON], [formatPercentage]), the subtree locator
    ([getChildWithId]) and the chart data builder ([createChartData]),
    together with the fragment of ECMAScript they rely on. *)

From Stdlib Require Import ZArith QArith List String Ascii Bool Lia SpecFloat.
Import ListNotations.

Local Open Scope string_scope.
Local Open Scope Z_scope.

Set Warnings "-register-all".

(** ** The fragment of ECMAScript used by the program *)

Module JS.

(** Values stored in the objects the program builds: a property that was
    never assigned reads as [VUndefined]. *)
Inductive value : Type :=
| VUndefined
| VBoolean (b : bool)
| VString (s : string).

(** [ToBoolean], the test of [if (v)]. *)
Definition truthy (v : value) : bool :=
  match v with
  | VUndefined => false
  | VBoolean b => b
  | VString s => negb (String.eqb s "")
  end.

(** [a === b]. *)
Definition strict_eq (a b : value) : bool :=
  match a, b with
  | VUndefined, VUndefined => true
  | VBoolean x, VBoolean y => Bool.eqb x y
  | VString x, VString y => String.eqb x y
  | _, _ => false
  end.

(** [ToString] on these values, as used by [v + 'text']. *)
Definition to_string (v : value) : string :=
  match v with
  | VUndefined => "undefined"
  | VBoolean true => "true"
  | VBoolean false => "false"
  | VString s => s
  end.

(** [b + ''] for a boolean [b]. *)
Definition string_of_bool (b : bool) : string := to_string (VBoolean b).

(** Number values are IEEE 754 binary64. *)
Definition prec : Z := 53.
Definition emax : Z := 1024.

Definition number : Type := spec_float.

Definition NaN : number := S754_nan.

(** The literal [100]. *)
Definition hundred : number := S754_finite false 7036874417766400 (-46).

(** The number 1. *)
Definition one : number := S754_finite false 4503599627370496 (-52).

(** [x * y]. *)
Definition mul (x y : number) : number := SFmul prec emax x y.

(** [ToBoolean] on numbers: zeros and NaN are falsy. *)
Definition number_truthy (x : number) : bool :=
  match x with
  | S754_zero _ | S754_nan => false
  | S754_infinity _ | S754_finite _ _ _ => true
  end.

(** Decimal digits of a non-negative integer, most significant first. *)
Definition digit_char (d : Z) : ascii := ascii_of_nat (48 + Z.to_nat d).

Fixpoint decimal_fuel (fuel : nat) (n : Z) : string :=
  match fuel with
  | O => ""
  | S fuel' =>
      if n <? 10 then String (digit_char n) ""
      else decimal_fuel fuel' (n / 10) ++ String (digit_char (n mod 10)) ""
  end.

Definition decimal (n : Z) : string :=
  decimal_fuel (S (Z.to_nat (Z.log2 n))) n.

(** [String(n)] for an array index or nesting level [n]; such counters are
    far below 2^53, where every integer is a Number and prints in full. *)
Definition nat_to_string (n : nat) : string := decimal (Z.of_nat n).

Fixpoint zeros (k : nat) : string :=
  match k with
  | O => ""
  | S k' => String "0" (zeros k')
  end.

(** Steps 9-11 of [Number.prototype.toFixed]: the digits of [n] with a
    decimal point before the last [f] of them. *)
Definition fixed_notation (n : Z) (f : nat) : string :=
  let m := decimal n in
  match f with
  | O => m
  | S _ =>
      let k := String.length m in
      let m := if (k <=? f)%nat then zeros (f + 1 - k) ++ m else m in
      let k := String.length m in
      substring 0 (k - f) m ++ "." ++ substring (k - f) f m
  end.

(** The integer [n] for which [n / 10^f - m * 2^e] is closest to zero,
    the larger one on a tie. *)
Definition nearest_scaled (m : positive) (e : Z) (f : nat) : Z :=
  let p := 10 ^ Z.of_nat f in
  if 0 <=? e then Z.pos m * 2 ^ e * p
  else (2 * Z.pos m * p + 2 ^ (- e)) / 2 ^ (1 - e).

(** [m * 2^e >= b] for an integer [b]. *)
Definition finite_geb (m : positive) (e : Z) (b : Z) : bool :=
  if 0 <=? e then b <=? Z.pos m * 2 ^ e
  else b * 2 ^ (- e) <=? Z.pos m.

(** [Number::toString] on a finite [x = m * 2^e >= 10^21]: the shortest
    digit string [s] of some length [k] with [s * 10^(n-k)] rounding to [x],
    printed in exponent notation. *)
Definition rounds_to (v : Z) (m : positive) (e : Z) : bool :=
  match binary_normalize prec emax v 0 false with
  | S754_finite _ m' e' => Pos.eqb m' m && (e' =? e)
  | _ => false
  end.

Fixpoint shortest_digits (fuel k : nat) (X : Z) (N : nat) (m : positive) (e : Z)
  : Z * nat :=
  let u := 10 ^ Z.of_nat (N - k) in
  let lo := X / u * u in
  let hi := lo + u in
  let pick v := if 10 ^ Z.of_nat N <=? v then (1, S N) else (v / u, N) in
  match fuel with
  | O => (X, N)
  | S fuel' =>
      match rounds_to lo m e, rounds_to hi m e with
      | true, true => if X - lo <=? hi - X then pick lo else pick hi
      | true, false => pick lo
      | false, true => pick hi
      | false, false => shortest_digits fuel' (S k) X N m e
      end
  end.

Definition exponent_notation (s : Z) (n : nat) : string :=
  let d := decimal s in
  let e := "e+" ++ nat_to_string (n - 1) in
  match d with
  | String c EmptyString => String c e
  | String c rest => String c ("." ++ rest ++ e)
  | EmptyString => e
  end.

Fixpoint strip_zeros (fuel : nat) (s : Z) : Z :=
  match fuel with
  | O => s
  | S fuel' => if (s mod 10 =? 0) && (0 <? s) then strip_zeros fuel' (s / 10) else s
  end.

Definition to_string_large (m : positive) (e : Z) : string :=
  let X := Z.pos m * 2 ^ e in
  let N := String.length (decimal X) in
  let '(s, n) := shortest_digits N 1 X N m e in
  exponent_notation (strip_zeros N s) n.

(** [x.toFixed(f)] for [0 <= f <= 100]. *)
Definition toFixed (x : number) (f : nat) : string :=
  match x with
  | S754_nan => "NaN"
  | S754_infinity s => if s then "-Infinity" else "Infinity"
  | S754_zero _ => fixed_notation 0 f
  | S754_finite s m e =>
      (if s then "-" else "") ++
      (if finite_geb m e (10 ^ 21) then to_string_large m e
       else fixed_notation (nearest_scaled m e f) f)
  end.

End JS.

(** ** The program *)

(** A node of the profile tree returned by the analysis service, after
    [JSON.parse]: [percentage] and [children] may be missing. *)
Inductive ProfileNode : Type :=
  mkNode {
    node_id : string;
    node_name : string;
    node_percentage : option JS.number;
    node_children : option (list ProfileNode)
  }.

(** The parsed service response: [response['tree']] is the root node. *)
Record Response : Type := mkResponse { tree : ProfileNode }.

(** The object built by [createChildFromJSON] and completed by
    [parseDescriptionFromWatsonResponse]. *)
Record Item : Type :=
  mkItem {
    item_id : JS.value;
    item_name : JS.value;
    item_value : JS.value;
    item_type : JS.value;
    item_hasChildren : JS.value;
    item_graphURL : JS.value;
    item_showGraph : JS.value;
    item_isHeader : JS.value;
    item_isSubheader : JS.value;
    item_isLeaf : JS.value
  }.

(** One entry of the array built by [createChartData]. *)
Record ChartSlice : Type :=
  mkSlice {
    slice_value : JS.value;
    slice_color : JS.value;
    slice_highlight : JS.value;
    slice_label : JS.value
  }.

(** Outcome of a call that may throw. *)
Inductive completion (A : Type) : Type :=
| Normal (a : A)
| ThrowTypeError.
Arguments Normal {A} a.
Arguments ThrowTypeError {A}.

Definition isHeader (item : Item) : bool :=
  JS.strict_eq (item_type item) (JS.VString "1").

Definition isSubheader (item : Item) : bool :=
  JS.strict_eq (item_type item) (JS.VString "3")
  && JS.strict_eq (item_hasChildren item) (JS.VString "true").

Definition isLeaf (item : Item) : bool :=
  JS.strict_eq (item_hasChildren item) (JS.VString "false")
  && (JS.strict_eq (item_type item) (JS.VString "3")
      || JS.strict_eq (item_type item) (JS.VString "4")).

Definition idsWithGraphs : list string :=
  ["personality"; "Openness"; "Conscientiousness"; "Extraversion";
   "Agreeableness"; "Neuroticism"; "needs"; "values"].

(** [arr.indexOf(v)]: position of the first element strictly equal to [v],
    or -1. *)
Fixpoint indexOf_from (arr : list string) (v : JS.value) (i : Z) : Z :=
  match arr with
  | [] => -1
  | x :: rest =>
      if JS.strict_eq (JS.VString x) v then i else indexOf_from rest v (i + 1)
  end.

Definition indexOf (arr : list string) (v : JS.value) : Z := indexOf_from arr v 0.

Definition formatPercentage (percentage : option JS.number) : JS.value :=
  match percentage with
  | Some p =>
      if JS.number_truthy p
      then JS.VString (JS.toFixed (JS.mul p JS.hundred) 2 ++ "%")
      else JS.VUndefined
  | None => JS.VUndefined
  end.

Definition createChildFromJSON (appEnv_url : string) (json : ProfileNode)
    (nestLevel : nat) : Item :=
  let child :=
    {| item_id := JS.VString (node_id json);
       item_name := JS.VString (node_name json);
       item_value := formatPercentage (node_percentage json);
       item_type := JS.VString (JS.nat_to_string (nestLevel + 1));
       item_hasChildren :=
         JS.VString (JS.string_of_bool
                       (match node_children json with Some _ => true | None => false end));
       item_graphURL := JS.VUndefined;
       item_showGraph := JS.VUndefined;
       item_isHeader := JS.VUndefined;
       item_isSubheader := JS.VUndefined;
       item_isLeaf := JS.VUndefined |} in
  if -1 <? indexOf idsWithGraphs (item_id child)
  then
    {| item_id := item_id child;
       item_name := item_name child;
       item_value := item_value child;
       item_type := item_type child;
       item_hasChildren := item_hasChildren child;
       item_graphURL :=
         JS.VString ((appEnv_url ++ "/getGraph/") ++ JS.to_string (item_id child));
       item_showGraph := item_showGraph child;
       item_isHeader := item_isHeader child;
       item_isSubheader := item_isSubheader child;
       item_isLeaf := item_isLeaf child |}
  else child.

(** One turn of the loop of [parseChildren]: the item of [childJSON]
    followed by the items of everything below it. *)
Fixpoint parseChild (appEnv_url : string) (childJSON : ProfileNode)
    (nestLevel : nat) {struct childJSON} : list Item :=
  let child := createChildFromJSON appEnv_url childJSON nestLevel in
  let children :=
    match node_children childJSON with
    | Some childRoot =>
        (fix loop (itemRoot : list ProfileNode) : list Item :=
           match itemRoot with
           | [] => []
           | c :: rest => (parseChild appEnv_url c (nestLevel + 1) ++ loop rest)%list
           end) childRoot
    | None => []
    end in
  child :: children.

Definition parseChildren (appEnv_url : string)
    (itemRoot : option (list ProfileNode)) (nestLevel : nat) : list Item :=
  match itemRoot with
  | Some arr => flat_map (fun childJSON => parseChild appEnv_url childJSON nestLevel) arr
  | None => []
  end.

(** The body of [items.forEach] in [parseDescriptionFromWatsonResponse]. *)
Definition annotate (sessionID : string) (item : Item) : Item :=
  let item :=
    if JS.truthy (item_graphURL item)
    then
      {| item_id := item_id item;
         item_name := item_name item;
         item_value := item_value item;
         item_type := item_type item;
         item_hasChildren := item_hasChildren item;
         item_graphURL :=
           JS.VString (JS.to_string (item_graphURL item) ++ ("/?sessionId=" ++ sessionID));
         item_showGraph := JS.VString "true";
         item_isHeader := item_isHeader item;
         item_isSubheader := item_isSubheader item;
         item_isLeaf := item_isLeaf item |}
    else
      {| item_id := item_id item;
         item_name := item_name item;
         item_value := item_value item;
         item_type := item_type item;
         item_hasChildren := item_hasChildren item;
         item_graphURL := item_graphURL item;
         item_showGraph := JS.VString "false";
         item_isHeader := item_isHeader item;
         item_isSubheader := item_isSubheader item;
         item_isLeaf := item_isLeaf item |} in
  {| item_id := item_id item;
     item_name := item_name item;
     item_value := item_value item;
     item_type := item_type item;
     item_hasChildren := item_hasChildren item;
     item_graphURL := item_graphURL item;
     item_showGraph := item_showGraph item;
     item_isHeader := JS.VBoolean (isHeader item);
     item_isSubheader := JS.VBoolean (isSubheader item);
     item_isLeaf := JS.VBoolean (isLeaf item) |}.

Definition parseDescriptionFromWatsonResponse (appEnv_url sessionID : string)
    (response : Response) : list Item :=
  let tree := node_children (tree response) in
  let items := parseChildren appEnv_url tree 0 in
  let items :=
    filter (fun item => negb (JS.strict_eq (item_type item) (JS.VString "2"))) items in
  map (annotate sessionID) items.

(** One turn of the loop of [getChildWithId]. *)
Fixpoint locateChild (id : string) (child : ProfileNode) {struct child}
  : option ProfileNode :=
  if String.eqb (node_id child) id then
    match node_children child with
    | Some [only] => Some only
    | _ => Some child
    end
  else
    match node_children child with
    | Some childRoot =>
        (fix loop (itemRoot : list ProfileNode) : option ProfileNode :=
           match itemRoot with
           | [] => None
           | c :: rest =>
               match locateChild id c with
               | Some found => Some found
               | None => loop rest
               end
           end) childRoot
    | None => None
    end.

(** [getChildWithId(id, itemRoot)]; [None] is the [undefined] returned when
    the loop ends without a match. *)
Fixpoint getChildWithId_loop (id : string) (itemRoot : list ProfileNode)
  : option ProfileNode :=
  match itemRoot with
  | [] => None
  | child :: rest =>
      match locateChild id child with
      | Some found => Some found
      | None => getChildWithId_loop id rest
      end
  end.

Definition getChildWithId (id : string) (itemRoot : option (list ProfileNode))
  : option ProfileNode :=
  match itemRoot with
  | Some arr => getChildWithId_loop id arr
  | None => None
  end.

Definition colors : list string :=
  ["#4178BD"; "#9854D4"; "#01B4A0"; "#D74009"; "#323232"; "#EDC01C"].

Definition highlights : list string :=
  ["#5596E6"; "#AF6EE8"; "#41D6C3"; "#FF5006"; "#555555"; "#FAE249"].

(** [arr[i]]: [undefined] outside the array. *)
Definition array_get (arr : list string) (i : nat) : JS.value :=
  match nth_error arr i with
  | Some s => JS.VString s
  | None => JS.VUndefined
  end.

(** [ToNumber] of a possibly missing number. *)
Definition to_number (v : option JS.number) : JS.number :=
  match v with
  | Some x => x
  | None => JS.NaN
  end.

(** The loop of [createChartData], from index [i] on. *)
Fixpoint createChartData_from (children : list ProfileNode) (i : nat)
  : list ChartSlice :=
  match children with
  | [] => []
  | child :: rest =>
      let value := JS.toFixed (JS.mul (to_number (node_percentage child)) JS.hundred) 2 in
      {| slice_value := JS.VString value;
         slice_color := array_get colors (Nat.modulo i (List.length colors));
         slice_highlight := array_get highlights (Nat.modulo i (List.length highlights));
         slice_label := JS.VString (node_name child) |}
        :: createChartData_from rest (i + 1)
  end.

(** [createChartData(rootJSON)]: reading [children.length] throws when
    [rootJSON] has no [children]. *)
Definition createChartData (rootJSON : ProfileNode) : completion (list ChartSlice) :=
  match node_children rootJSON with
  | Some children => Normal (createChartData_from children 0)
  | None => ThrowTypeError
  end.

(** What the [/getGraph/:watsonId] handler does with the stored profile. *)
Inductive GraphReply : Type :=
| Rendered (data : list ChartSlice)
| NotFound404.

Definition getGraph (watsonId : string) (insights : Response) : completion GraphReply :=
  let itemRoot := node_children (tree insights) in
  match getChildWithId watsonId itemRoot with
  | Some child =>
      match createChartData child with
      | Normal data => Normal (Rendered data)
      | ThrowTypeError => ThrowTypeError
      end
  | None => Normal NotFound404
  end.

(** ** Reference definitions

    The traversal and the unwrapping rule as the specification words them,
    against which the program's functions are compared. *)

(** Pre-order listing of a node and everything below it, each node paired
    with its nesting level. *)
Fixpoint spec_preorder_node (n : ProfileNode) (level : nat) {struct n}
  : list (ProfileNode * nat) :=
  (n, level) ::
    match node_children n with
    | Some forest =>
        (fix below (l : list ProfileNode) : list (ProfileNode * nat) :=
           match l with
           | [] => []
           | c :: rest => (spec_preorder_node c (S level) ++ below rest)%list
           end) forest
    | None => []
    end.

(** Pre-order listing of a forest whose roots sit at [level]. *)
Definition spec_preorder (forest : option (list ProfileNode)) (level : nat)
  : list (ProfileNode * nat) :=
  match forest with
  | Some l => flat_map (fun n => spec_preorder_node n level) l
  | None => []
  end.

(** The unwrapping rule of the locator: a match with exactly one child
    stands for that child. *)
Definition spec_unwrap (n : ProfileNode) : ProfileNode :=
  match node_children n with
  | Some [only] => only
  | _ => n
  end.

(** The first node, in pre-order, whose id is the target. *)
Definition spec_first_match (id : string) (forest : option (list ProfileNode))
  : option ProfileNode :=
  find (fun n => String.eqb (node_id n) id) (map fst (spec_preorder forest 1)).

(** The item the flattener emits for node [n] at 1-based level [level],
    before the session is attached. *)
Definition emitted (appEnv_url : string) (entry : ProfileNode * nat) : Item :=
  createChildFromJSON appEnv_url (fst entry) (snd entry - 1).

(** The nodes that reach the final sequence: every level but the second. *)
Definition spec_displayed (forest : option (list ProfileNode))
  : list (ProfileNode * nat) :=
  filter (fun entry => negb (Nat.eqb (snd entry) 2)) (spec_preorder forest 1).

(** The exact value [m * 2^e] of a finite number. *)
Definition finite_value (m : positive) (e : Z) : Q :=
  if 0 <=? e then inject_Z (Z.pos m * 2 ^ e)
  else Z.pos m # Z.to_pos (2 ^ (- e)).

(** [n] hundredths is [x >= 0] rounded to two decimals: the nearest multiple
    of 0.01, the upper one when two are equally near. *)
Definition spec_rounded_hundredths (x : JS.number) (n : Z) : Prop :=
  match x with
  | S754_zero _ => n = 0
  | S754_finite false m e =>
      (100 * finite_value m e - (1 # 2) < inject_Z n
       <= 100 * finite_value m e + (1 # 2))%Q
  | _ => False
  end.

(** [n] hundredths written with exactly two decimal digits. *)
Definition spec_two_decimals (n : Z) : string :=
  JS.decimal (n / 100) ++ "."
    ++ String (JS.digit_char (n / 10 mod 10)) (String (JS.digit_char (n mod 10)) "").

(** ** Sample profiles *)

Definition pct_0_4212 : JS.number := S754_finite false 7587664652193812 (-54).
Definition pct_1 : JS.number := S754_finite false 4503599627370496 (-52).
Definition pct_0_5 : JS.number := S754_finite false 4503599627370496 (-53).
Definition pct_0 : JS.number := S754_zero false.

Definition leaf (id name : string) (percentage : option JS.number) : ProfileNode :=
  mkNode id name percentage None.

Definition adventurousness : ProfileNode :=
  leaf "Adventurousness" "Adventurousness" (Some pct_1).

Definition intellect : ProfileNode := leaf "Intellect" "Intellect" (Some pct_0_5).

Definition openness : ProfileNode :=
  mkNode "Openness" "Openness" (Some pct_0_4212) (Some [adventurousness; intellect]).

Definition openness_parent : ProfileNode :=
  mkNode "Openness_parent" "Openness" (Some pct_0_4212) (Some [openness]).

Definition personality : ProfileNode :=
  mkNode "personality" "Big 5" None (Some [openness_parent]).

Definition liberty : ProfileNode := leaf "Liberty" "Liberty" (Some pct_0).

Definition needs : ProfileNode :=
  mkNode "needs" "Needs" None (Some [liberty; leaf "Love" "Love" (Some pct_0_5);
                                      leaf "Ideal" "Ideal" (Some pct_1)]).

Definition sample_profile : Response :=
  mkResponse (mkNode "r" "root" None (Some [personality; needs])).

(** The tree root -> [A [B, C], D]. *)
Definition abcd_profile : Response :=
  mkResponse
    (mkNode "root" "root" None
       (Some [mkNode "A" "a" None (Some [leaf "B" "b" None; leaf "C" "c" None]);
              leaf "D" "d" None])).

(** A node with eight children, for the chart. *)
Definition eight_children : ProfileNode :=
  mkNode "values" "Values" None
    (Some (map (fun name => leaf name name (Some pct_0_5))
               ["c0"; "c1"; "c2"; "c3"; "c4"; "c5"; "c6"; "c7"])).

(** ** The request handlers

    The routes [/setContent], [/getDescription] and [/getGraph/:watsonId]
    with the helpers between them.  The analysis service, the document
    store, [JSON.stringify]/[JSON.parse] and the clock are collaborators the
    program only calls: they are the fields of an [Environment]. *)

(** A value read by [JSON.parse]: the request body and the content kept in
    the session document. *)
Inductive JSON : Type :=
| JNull
| JBool (b : bool)
| JNumber (x : JS.number)
| JString (s : string)
| JArray (items : list JSON)
| JObject (fields : list (string * JSON)).

(** [ToBoolean]. *)
Definition json_truthy (v : JSON) : bool :=
  match v with
  | JNull => false
  | JBool b => b
  | JNumber x => JS.number_truthy x
  | JString s => negb (String.eqb s "")
  | JArray _ | JObject _ => true
  end.

(** [ToBoolean] of a value that may be [undefined] ([None]). *)
Definition truthy_opt (v : option JSON) : bool :=
  match v with
  | Some j => json_truthy j
  | None => false
  end.

(** The own property [key] of a parsed object. *)
Fixpoint lookup (key : string) (fields : list (string * JSON)) : option JSON :=
  match fields with
  | [] => None
  | (k, v) :: rest => if String.eqb k key then Some v else lookup key rest
  end.

Inductive exn : Type := TypeError | SyntaxError.

(** Outcome of a call: a value, or an exception nobody catches. *)
Inductive run (A : Type) : Type :=
| Done (a : A)
| Uncaught (e : exn).
Arguments Done {A} a.
Arguments Uncaught {A} e.

Definition bind {A B : Type} (m : run A) (k : A -> run B) : run B :=
  match m with
  | Done a => k a
  | Uncaught e => Uncaught e
  end.

(** [v[key]] for a key that is no index, not [length] and not inherited
    (here "form" and "content"): only an object can hold it, and reading it
    off [undefined] or [null] throws. *)
Definition property (v : option JSON) (key : string) : run (option JSON) :=
  match v with
  | None | Some JNull => Uncaught TypeError
  | Some (JObject fields) => Done (lookup key fields)
  | Some _ => Done None
  end.

(** What the handlers read of a request. *)
Record Request : Type :=
  mkRequest {
    query_sessionId : option string;
    body : JSON;
    params_watsonId : string
  }.

(** An error object handed to a callback; it is always truthy. *)
Inductive Err : Type := mkErr (message : string).

(** The session document: the four fields the program writes, and whatever
    else the store keeps in it. *)
Record Doc : Type :=
  mkDoc {
    doc_sessionID : option string;
    doc_content : option JSON;
    doc_response : option string;
    doc_created : option string;
    doc_other : list (string * JSON)
  }.

(** What [db.get] passes to its callback: an error, a document, or neither. *)
Inductive GetOutcome : Type :=
| GetFailed (err : Err)
| GetFound (data : Doc)
| GetEmpty.

(** The lines written with [console.error]. *)
Inductive LogLine : Type :=
| LogFetchFailed (err : Err)
| LogInsertFailed (err : Err)
| LogContentFetchingError (err : Err)
| LogNoEntry (sessionID : option string).

Inductive ReplyBody : Type :=
| JsonMessage (title : string) (description : JS.value)
| JsonEmpty
| JsonItems (items : list Item)
| ChartPage (data : list ChartSlice)
| NotFoundPage.

Record Reply : Type := mkReply { status : nat; reply_body : ReplyBody }.

(** The store and the console, which the handlers may change. *)
Record World (S : Type) : Type := mkWorld { store : S; console : list LogLine }.
Arguments mkWorld {S} store console.
Arguments store {S} w.
Arguments console {S} w.

Record Environment (S : Type) : Type :=
  mkEnvironment {
    appEnv_url : string;
    insights_profile : option JSON -> Err + Response;
    db_get : S -> option string -> GetOutcome;
    db_insert : S -> Doc -> option string -> option Err * S;
    JSON_stringify : Response -> string;
    JSON_parse : string -> run Response;
    toLocaleString_now : string
  }.
Arguments appEnv_url {S} e.
Arguments insights_profile {S} e text.
Arguments db_get {S} e s key.
Arguments db_insert {S} e s doc key.
Arguments JSON_stringify {S} e response.
Arguments JSON_parse {S} e text.
Arguments toLocaleString_now {S} e.

Definition sendPostError (message : JS.value) : Reply :=
  {| status := 400; reply_body := JsonMessage "Error" message |}.

Definition sendPostSuccess : Reply := {| status := 200; reply_body := JsonEmpty |}.

Definition getSessionIDUnchecked (req : Request) : option string :=
  query_sessionId req.

Definition isSessionIDGiven (req : Request) : bool :=
  match getSessionIDUnchecked req with
  | Some _ => true
  | None => false
  end.

(** [body['form'] && body['form']['content']]: the value of the [&&]. *)
Definition isContentGiven (req : Request) : run (option JSON) :=
  bind (property (Some (body req)) "form") (fun form =>
  if truthy_opt form then property form "content" else Done form).

Definition getContentUnchecked (req : Request) : run (option JSON) :=
  bind (property (Some (body req)) "form") (fun form => property form "content").

(** The arguments [checkSetContentRequestValidity] passes to its handler. *)
Definition checkSetContentRequestValidity (req : Request) : run (bool * JS.value) :=
  if isSessionIDGiven req then
    bind (isContentGiven req) (fun given =>
    if truthy_opt given then Done (true, JS.VUndefined)
    else Done (false, JS.VString "Invalid content!"))
  else Done (false, JS.VString "Invalid session ID!").

Definition sendDescriptionSuccess (items : list Item) : Reply :=
  {| status := 200; reply_body := JsonItems items |}.

(** The session id as it reads inside a string. *)
Definition sessionID_text (sessionID : option string) : string :=
  JS.to_string match sessionID with
               | Some s => JS.VString s
               | None => JS.VUndefined
               end.

Section Handlers.

Context {S : Type}.
Variable env : Environment S.

Definition log (w : World S) (line : LogLine) : World S :=
  mkWorld (store w) (console w ++ [line])%list.

(** [updateDatabaseContent]: the error it hands on, and the world after. *)
Definition updateDatabaseContent (w : World S) (content : option JSON)
    (sessionID : option string) (response : string) : option Err * World S :=
  let doc :=
    match db_get env (store w) sessionID with
    | GetFound data => data
    | GetFailed _ | GetEmpty =>
        {| doc_sessionID := sessionID; doc_content := None; doc_response := None;
           doc_created := None; doc_other := [] |}
    end in
  let doc :=
    {| doc_sessionID := doc_sessionID doc;
       doc_content := content;
       doc_response := Some response;
       doc_created := Some (toLocaleString_now env);
       doc_other := doc_other doc |} in
  match db_insert env (store w) doc sessionID with
  | (Some err, store') => (Some err, log (mkWorld store' (console w)) (LogInsertFailed err))
  | (None, store') => (None, mkWorld store' (console w))
  end.

Definition processContentUnchecked (w : World S) (req : Request)
  : run (option Err * World S) :=
  bind (getContentUnchecked req) (fun content =>
  let sessionID := getSessionIDUnchecked req in
  match insights_profile env content with
  | inl err => Done (Some err, log w (LogFetchFailed err))
  | inr response =>
      let responseString := JSON_stringify env response in
      Done (updateDatabaseContent w content sessionID responseString)
  end).

(** The handler of [POST /setContent]. *)
Definition setContent (w : World S) (req : Request) : run (Reply * World S) :=
  bind (checkSetContentRequestValidity req) (fun '(isValid, errorMessage) =>
  if negb isValid then Done (sendPostError errorMessage, w)
  else
    bind (processContentUnchecked w req) (fun '(err, w') =>
    match err with
    | Some _ => Done (sendPostError (JS.VString "Could not fetch Personality Insights"), w')
    | None => Done (sendPostSuccess, w')
    end)).

(** [getLatestResponse]: the [response] it hands on ([None] for
    [undefined]), and the world after. *)
Definition getLatestResponse (w : World S) (req : Request) : option string * World S :=
  let sessionID := getSessionIDUnchecked req in
  match db_get env (store w) sessionID with
  | GetFailed err => (None, log w (LogContentFetchingError err))
  | GetFound data => (doc_response data, w)
  | GetEmpty => (None, log w (LogNoEntry sessionID))
  end.

(** [getLatestInsightsJSON]: the parsed profile, or [None] for the falsy
    [response] handed on as it is. *)
Definition getLatestInsightsJSON (w : World S) (req : Request)
  : run (option Response * World S) :=
  let '(response, w') := getLatestResponse w req in
  match response with
  | Some text =>
      if negb (String.eqb text "")
      then bind (JSON_parse env text) (fun insights => Done (Some insights, w'))
      else Done (None, w')
  | None => Done (None, w')
  end.

(** The handler of [GET /getDescription]. *)
Definition getDescription (w : World S) (req : Request) : run (Reply * World S) :=
  bind (getLatestInsightsJSON w req) (fun '(insights, w') =>
  match insights with
  | Some insights =>
      let items :=
        parseDescriptionFromWatsonResponse (appEnv_url env)
          (sessionID_text (getSessionIDUnchecked req)) insights in
      Done (sendDescriptionSuccess items, w')
  | None =>
      Done (sendPostError (JS.VString "No content defined for this session"), w')
  end).

(** The handler of [GET /getGraph/:watsonId]. *)
Definition getGraph_handler (w : World S) (req : Request) : run (Reply * World S) :=
  bind (getLatestInsightsJSON w req) (fun '(insights, w') =>
  match insights with
  | Some insights =>
      match getGraph (params_watsonId req) insights with
      | Normal (Rendered data) =>
          Done ({| status := 200; reply_body := ChartPage data |}, w')
      | Normal NotFound404 => Done ({| status := 404; reply_body := NotFoundPage |}, w')
      | ThrowTypeError => Uncaught TypeError
      end
  | None => Done ({| status := 404; reply_body := NotFoundPage |}, w')
  end).

End Handlers.

(** The text a request submits, as a reader of the route would put it:
    the truthy [content] of an object [form] of an object body. *)
Definition spec_content (body : JSON) : option JSON :=
  match body with
  | JObject fields =>
      match lookup "form" fields with
      | Some (JObject form) =>
          match lookup "content" form with
          | Some content => if json_truthy content then Some content else None
          | None => None
          end
      | _ => None
      end
  | _ => None
  end.

(** The document [updateDatabaseContent] writes over what [db.get] gave. *)
Definition spec_document (found : GetOutcome) (sessionID : option string)
    (content : option JSON) (response created : string) : Doc :=
  match found with
  | GetFound data =>
      mkDoc (doc_sessionID data) content (Some response) (Some created) (doc_other data)
  | GetFailed _ | GetEmpty => mkDoc sessionID content (Some response) (Some created) []
  end.

(** ** A store kept in memory

    One environment to run the handlers in: documents in an association
    list, a store that never fails, a service that answers every text with
    the same profile. *)

Definition MemoryStore : Type := list (option string * Doc).

Definition key_eqb (a b : option string) : bool :=
  match a, b with
  | Some x, Some y => String.eqb x y
  | None, None => true
  | _, _ => false
  end.

Fixpoint memory_find (s : MemoryStore) (key : option string) : option Doc :=
  match s with
  | [] => None
  | (k, d) :: rest => if key_eqb k key then Some d else memory_find rest key
  end.

Definition memory_get (s : MemoryStore) (key : option string) : GetOutcome :=
  match memory_find s key with
  | Some d => GetFound d
  | None => GetFailed (mkErr "missing")
  end.

Definition memory_insert (s : MemoryStore) (doc : Doc) (key : option string)
  : option Err * MemoryStore :=
  (None, (key, doc) :: s).

Definition memory_env (profile : Response) : Environment MemoryStore :=
  {| appEnv_url := "http://host";
     insights_profile := fun _ => inr profile;
     db_get := memory_get;
     db_insert := memory_insert;
     JSON_stringify := fun _ => "{profile}";
     JSON_parse := fun _ => Done profile;
     toLocaleString_now := "11/1/2026, 12:00:00 PM" |}.

(** The same environment with a service that is out of reach. *)
Definition unreachable_service_env : Environment MemoryStore :=
  {| appEnv_url := "http://host";
     insights_profile := fun _ => inl (mkErr "service unreachable");
     db_get := memory_get;
     db_insert := memory_insert;
     JSON_stringify := fun _ => "{profile}";
     JSON_parse := fun _ => Uncaught SyntaxError;
     toLocaleString_now := "11/1/2026, 12:00:00 PM" |}.

Definition empty_world : World MemoryStore := mkWorld [] [].

Definition post_request : Request :=
  mkRequest (Some "s1")
    (JObject [("form", JObject [("content", JString "I like long walks.")])]) "".

Definition get_request (watsonId : string) : Request :=
  mkRequest (Some "s1") (JObject []) watsonId.

Definition stored_document : Doc :=
  mkDoc (Some "s1") (Some (JString "I like long walks.")) (Some "{profile}")
        (Some "11/1/2026, 12:00:00 PM") [].

Definition world_after_post : World MemoryStore :=
  mkWorld [(Some "s1", stored_document)] [].

(** ** Evaluation of the number formatting *)

Example toFixed_42_12 :
  JS.toFixed (JS.mul (S754_finite false 7587664652193812 (-54)) JS.hundred) 2
  = "42.12".
Proof. vm_compute. reflexivity. Qed.

Example toFixed_100 :
  JS.toFixed (JS.mul (S754_finite false 4503599627370496 (-52)) JS.hundred) 2
  = "100.00".
Proof. vm_compute. reflexivity. Qed.

Example toFixed_half_cent :
  JS.toFixed (JS.mul (S754_finite false 7378697629483821 (-67)) JS.hundred) 2
  = "0.01".
Proof. vm_compute. reflexivity. Qed.

Example toFixed_1e21 :
  JS.toFixed (S754_finite false 7629394531250000 17) 2 = "1e+21".
Proof. vm_compute. reflexivity. Qed.

Example toFixed_large :
  JS.toFixed (S754_finite false 7358598054191213 24) 2 = "1.2345678901234569e+23".
Proof. vm_compute. reflexivity. Qed.

Example toFixed_NaN : JS.toFixed JS.NaN 2 = "NaN".
Proof. reflexivity. Qed.

(** ** Decimal printing *)

Section Decimal.

Lemma decimal_fuel_more (f : nat) :
  forall n, 0 <= n < 2 ^ Z.of_nat (S f) ->
            JS.decimal_fuel (S (S f)) n = JS.decimal_fuel (S f) n.
Proof.
  induction f as [|f IH]; intros n Hn.
  - change (2 ^ Z.of_nat 1) with 2 in Hn.
    cbn [JS.decimal_fuel].
    destruct (n <? 10) eqn:E; [reflexivity|].
    apply Z.ltb_ge in E. lia.
  - change (JS.decimal_fuel (S (S (S f))) n)
      with (if n <? 10 then String (JS.digit_char n) ""
            else JS.decimal_fuel (S (S f)) (n / 10) ++ String (JS.digit_char (n mod 10)) "").
    change (JS.decimal_fuel (S (S f)) n)
      with (if n <? 10 then String (JS.digit_char n) ""
            else JS.decimal_fuel (S f) (n / 10) ++ String (JS.digit_char (n mod 10)) "").
    destruct (n <? 10) eqn:E; [reflexivity|].
    apply Z.ltb_ge in E.
    rewrite IH; [reflexivity|].
    rewrite Nat2Z.inj_succ, Z.pow_succ_r in Hn by lia.
    split; [apply Z.div_pos; lia|].
    apply Z.div_lt_upper_bound; lia.
Qed.

Lemma decimal_fuel_enough (k f : nat) :
  forall n, 0 <= n < 2 ^ Z.of_nat (S f) ->
            JS.decimal_fuel (S f + k) n = JS.decimal_fuel (S f) n.
Proof.
  induction k as [|k IH]; intros n Hn.
  - now rewrite Nat.add_0_r.
  - replace (S f + S k)%nat with (S (S (f + k))) by lia.
    rewrite decimal_fuel_more.
    + apply IH, Hn.
    + split; [lia|].
      eapply Z.lt_le_trans; [apply Hn|].
      apply Z.pow_le_mono_r; lia.
Qed.

Lemma log2_fuel (n : Z) :
  0 <= n -> n < 2 ^ Z.of_nat (S (Z.to_nat (Z.log2 n))).
Proof.
  intros Hn.
  rewrite Nat2Z.inj_succ, Z2Nat.id by apply Z.log2_nonneg.
  destruct (Z.eq_dec n 0) as [->|Hz]; [reflexivity|].
  apply Z.log2_spec. lia.
Qed.

Lemma decimal_fuel_decimal (f : nat) (n : Z) :
  0 <= n -> (Z.to_nat (Z.log2 n) < f)%nat -> JS.decimal_fuel f n = JS.decimal n.
Proof.
  intros Hn Hf. unfold JS.decimal.
  replace f with (S (Z.to_nat (Z.log2 n)) + (f - S (Z.to_nat (Z.log2 n))))%nat by lia.
  apply decimal_fuel_enough. split; [exact Hn | now apply log2_fuel].
Qed.

(** The printer obeys the usual recursion on the digits. *)
Lemma decimal_eq (n : Z) :
  0 <= n ->
  JS.decimal n =
    if n <? 10 then String (JS.digit_char n) ""
    else JS.decimal (n / 10) ++ String (JS.digit_char (n mod 10)) "".
Proof.
  intros Hn. unfold JS.decimal at 1. cbn [JS.decimal_fuel].
  destruct (n <? 10) eqn:E; [reflexivity|].
  apply Z.ltb_ge in E.
  rewrite decimal_fuel_decimal; [reflexivity| apply Z.div_pos; lia |].
  pose proof (Z.log2_nonneg (n / 10)).
  assert (Z.log2 (n / 10) < Z.log2 n); [|lia].
  assert (H2 : 0 < n / 10) by (apply Z.div_str_pos; lia).
  apply Z.log2_lt_pow2; [exact H2|].
  apply Z.div_lt_upper_bound; [lia|].
  assert (Hs : n < 2 ^ Z.succ (Z.log2 n)) by (apply Z.log2_spec; lia).
  rewrite Z.pow_succ_r in Hs by apply Z.log2_nonneg.
  lia.
Qed.

Lemma decimal_small (n : Z) :
  0 <= n < 10 -> JS.decimal n = String (JS.digit_char n) "".
Proof.
  intros [H0 H1]. rewrite decimal_eq by exact H0.
  apply Z.ltb_lt in H1. now rewrite H1.
Qed.

Lemma decimal_step (n : Z) :
  10 <= n ->
  JS.decimal n = JS.decimal (n / 10) ++ String (JS.digit_char (n mod 10)) "".
Proof.
  intros H. rewrite decimal_eq by lia.
  apply Z.ltb_ge in H. now rewrite H.
Qed.

Lemma length_append (s t : string) :
  String.length (s ++ t) = (String.length s + String.length t)%nat.
Proof. induction s as [|c s IH]; cbn; [reflexivity | now rewrite IH]. Qed.

Lemma decimal_length_pos (n : Z) : 0 <= n -> (1 <= String.length (JS.decimal n))%nat.
Proof.
  intros Hn. rewrite decimal_eq by exact Hn.
  destruct (n <? 10); [cbn; lia|].
  rewrite length_append.
  change (String.length (String (JS.digit_char (n mod 10)) "")) with 1%nat. lia.
Qed.

Lemma decimal_length_two (n : Z) : 10 <= n -> (2 <= String.length (JS.decimal n))%nat.
Proof.
  intros Hn. rewrite decimal_step by exact Hn.
  rewrite length_append.
  change (String.length (String (JS.digit_char (n mod 10)) "")) with 1%nat.
  assert (1 <= String.length (JS.decimal (n / 10)))%nat; [|lia].
  apply decimal_length_pos, Z.div_pos; lia.
Qed.

Lemma digit_char_inj (a b : Z) :
  0 <= a < 10 -> 0 <= b < 10 -> JS.digit_char a = JS.digit_char b -> a = b.
Proof.
  intros Ha Hb H. unfold JS.digit_char in H.
  apply (f_equal nat_of_ascii) in H.
  rewrite !nat_ascii_embedding in H by lia. lia.
Qed.

Lemma append_last_inj (s t : string) (c d : ascii) :
  s ++ String c "" = t ++ String d "" -> s = t /\ c = d.
Proof.
  revert t. induction s as [|a s IH]; intros [|b t] H; cbn in H.
  - now inversion H.
  - inversion H as [[H1 H2]]. destruct t; discriminate.
  - inversion H as [[H1 H2]]. destruct s; discriminate.
  - inversion H as [[H1 H2]]. destruct (IH _ H2) as [-> ->]. now split.
Qed.

(** Distinct integers print differently. *)
Lemma decimal_inj (a : Z) :
  0 <= a -> forall b, 0 <= b -> JS.decimal a = JS.decimal b -> a = b.
Proof.
  induction a as [a IH] using (well_founded_induction (Z.lt_wf 0)).
  intros Ha b Hb H.
  destruct (Z.lt_ge_cases a 10) as [La|La], (Z.lt_ge_cases b 10) as [Lb|Lb].
  - rewrite !decimal_small in H by lia. inversion H as [H1].
    apply digit_char_inj; [lia | lia | exact H1].
  - apply (f_equal String.length) in H. rewrite decimal_small in H by lia.
    pose proof (decimal_length_two b Lb).
    change (String.length (String (JS.digit_char a) "")) with 1%nat in H. lia.
  - apply (f_equal String.length) in H. rewrite (decimal_small b) in H by lia.
    pose proof (decimal_length_two a La).
    change (String.length (String (JS.digit_char b) "")) with 1%nat in H. lia.
  - rewrite (decimal_step a), (decimal_step b) in H by lia.
    apply append_last_inj in H. destruct H as [H1 H2].
    apply digit_char_inj in H2; [| apply Z.mod_pos_bound; lia | apply Z.mod_pos_bound; lia].
    assert (a / 10 = b / 10).
    { apply IH; [| apply Z.div_pos; lia | apply Z.div_pos; lia | exact H1].
      split; [apply Z.div_pos; lia | apply Z.div_lt; lia]. }
    rewrite (Z.div_mod a 10), (Z.div_mod b 10) by lia. congruence.
Qed.

Lemma nat_to_string_inj (a b : nat) :
  JS.nat_to_string a = JS.nat_to_string b -> a = b.
Proof.
  unfold JS.nat_to_string. intros H.
  apply decimal_inj in H; lia.
Qed.

End Decimal.

(** ** Strings and strict equality *)

Lemma strict_eq_string (a : JS.value) (s : string) :
  JS.strict_eq a (JS.VString s) = true <-> a = JS.VString s.
Proof.
  destruct a as [|b|t]; cbn; try (split; [discriminate | discriminate]).
  rewrite String.eqb_eq. split; [now intros -> | now intros [= ->]].
Qed.

Lemma append_nonempty (a b d : string) (c : ascii) :
  String.eqb ((a ++ String c b) ++ d) "" = false.
Proof. destruct a; reflexivity. Qed.

Lemma append_assoc (a b c : string) : (a ++ b) ++ c = a ++ (b ++ c).
Proof. induction a as [|x a IH]; cbn; [reflexivity | now rewrite IH]. Qed.

(** ** Induction over profile trees *)

Section TreeInduction.

Variable P : ProfileNode -> Prop.
Variable Q : list ProfileNode -> Prop.

Hypothesis P_leaf : forall i n p, P (mkNode i n p None).
Hypothesis P_inner : forall i n p l, Q l -> P (mkNode i n p (Some l)).
Hypothesis Q_nil : Q [].
Hypothesis Q_cons : forall c rest, P c -> Q rest -> Q (c :: rest).

Lemma ProfileNode_forest_ind : forall n : ProfileNode, P n.
Proof.
  fix IH 1. intros [i nm p [l|]]; [apply P_inner | apply P_leaf].
  induction l as [|c rest IHl]; [exact Q_nil|].
  apply Q_cons; [apply IH | exact IHl].
Qed.

Lemma forest_ind (l : list ProfileNode) : Q l.
Proof.
  induction l as [|c rest IH]; [exact Q_nil|].
  apply Q_cons; [apply ProfileNode_forest_ind | exact IH].
Qed.

End TreeInduction.

(** ** The loops unfolded *)

Lemma parseChild_eq (url : string) (c : ProfileNode) (lvl : nat) :
  parseChild url c lvl =
    createChildFromJSON url c lvl :: parseChildren url (node_children c) (lvl + 1).
Proof.
  destruct c as [i n p [l|]]; reflexivity.
Qed.

(** The recursion of [parseChildren] as the source writes it: the child,
    then what its own children give one level down, then the rest. *)
Lemma parseChildren_cons (url : string) (c : ProfileNode) (rest : list ProfileNode)
    (lvl : nat) :
  parseChildren url (Some (c :: rest)) lvl =
    (createChildFromJSON url c lvl
       :: parseChildren url (node_children c) (lvl + 1)
       ++ parseChildren url (Some rest) lvl)%list.
Proof. cbn [parseChildren flat_map]. now rewrite parseChild_eq. Qed.

Lemma spec_preorder_node_eq (c : ProfileNode) (level : nat) :
  spec_preorder_node c level = (c, level) :: spec_preorder (node_children c) (S level).
Proof.
  destruct c as [i n p [l|]]; reflexivity.
Qed.

Lemma spec_preorder_cons (c : ProfileNode) (rest : list ProfileNode) (level : nat) :
  spec_preorder (Some (c :: rest)) level =
    ((c, level) :: spec_preorder (node_children c) (S level)
       ++ spec_preorder (Some rest) level)%list.
Proof. cbn [spec_preorder flat_map]. now rewrite spec_preorder_node_eq. Qed.

Lemma locateChild_eq (id : string) (c : ProfileNode) :
  locateChild id c =
    if String.eqb (node_id c) id then Some (spec_unwrap c)
    else getChildWithId id (node_children c).
Proof.
  destruct c as [i n p [l|]]; cbn [locateChild node_id node_children getChildWithId].
  - destruct (String.eqb i id).
    + unfold spec_unwrap; cbn [node_children]. now destruct l as [|x [|y l]].
    + induction l as [|c rest IH]; cbn [getChildWithId_loop]; [reflexivity|].
      now rewrite <- IH.
  - now destruct (String.eqb i id).
Qed.

(** ** The flattener against the pre-order listing *)

Lemma createChild_type (url : string) (json : ProfileNode) (lvl : nat) :
  item_type (createChildFromJSON url json lvl) = JS.VString (JS.nat_to_string (lvl + 1)).
Proof. unfold createChildFromJSON. now destruct (-1 <? _). Qed.

Lemma createChild_id (url : string) (json : ProfileNode) (lvl : nat) :
  item_id (createChildFromJSON url json lvl) = JS.VString (node_id json).
Proof. unfold createChildFromJSON. now destruct (-1 <? _). Qed.

Lemma createChild_name (url : string) (json : ProfileNode) (lvl : nat) :
  item_name (createChildFromJSON url json lvl) = JS.VString (node_name json).
Proof. unfold createChildFromJSON. now destruct (-1 <? _). Qed.

Lemma createChild_value (url : string) (json : ProfileNode) (lvl : nat) :
  item_value (createChildFromJSON url json lvl) = formatPercentage (node_percentage json).
Proof. unfold createChildFromJSON. now destruct (-1 <? _). Qed.

Lemma createChild_hasChildren (url : string) (json : ProfileNode) (lvl : nat) :
  item_hasChildren (createChildFromJSON url json lvl) =
    JS.VString (match node_children json with Some _ => "true" | None => "false" end).
Proof.
  unfold createChildFromJSON.
  destruct (-1 <? _); cbn [item_hasChildren]; now destruct (node_children json).
Qed.

Lemma parseChildren_preorder (url : string) (forest : option (list ProfileNode)) :
  forall lvl,
    parseChildren url forest lvl = map (emitted url) (spec_preorder forest (S lvl)).
Proof.
  destruct forest as [l|]; [|reflexivity].
  apply (forest_ind
    (fun c => forall lvl,
       parseChildren url (node_children c) lvl =
         map (emitted url) (spec_preorder (node_children c) (S lvl)))
    (fun l => forall lvl,
       parseChildren url (Some l) lvl = map (emitted url) (spec_preorder (Some l) (S lvl)))).
  - reflexivity.
  - intros i n p l0 IH lvl. apply IH.
  - reflexivity.
  - intros c rest IHc IHrest lvl.
    rewrite parseChildren_cons, spec_preorder_cons.
    cbn [map]. rewrite map_app, <- IHrest, Nat.add_1_r, <- IHc.
    unfold emitted at 1. cbn [fst snd].
    now replace (S lvl - 1)%nat with lvl by lia.
Qed.

Lemma spec_preorder_level (forest : option (list ProfileNode)) :
  forall k n level, In (n, level) (spec_preorder forest k) -> (k <= level)%nat.
Proof.
  destruct forest as [l|]; [|intros k n level []].
  apply (forest_ind
    (fun c => forall k n level,
       In (n, level) (spec_preorder (node_children c) k) -> (k <= level)%nat)
    (fun l => forall k n level,
       In (n, level) (spec_preorder (Some l) k) -> (k <= level)%nat)).
  - intros i nm p k n level [].
  - intros i nm p l0 IH. exact IH.
  - intros k n level [].
  - intros c rest IHc IHrest k n level.
    rewrite spec_preorder_cons. cbn [In]. rewrite in_app_iff.
    intros [H|[H|H]].
    + inversion H. lia.
    + apply IHc in H. lia.
    + now apply IHrest in H.
Qed.

Lemma find_app_first {A : Type} (f : A -> bool) (l1 l2 : list A) :
  find f (l1 ++ l2)%list =
    match find f l1 with
    | Some x => Some x
    | None => find f l2
    end.
Proof.
  induction l1 as [|a l1 IH]; cbn; [reflexivity|].
  now destruct (f a).
Qed.

(** The locator is the first pre-order match, unwrapped. *)
Lemma getChildWithId_preorder (id : string) (forest : option (list ProfileNode)) :
  forall k,
    getChildWithId id forest =
      option_map spec_unwrap
        (find (fun n => String.eqb (node_id n) id) (map fst (spec_preorder forest k))).
Proof.
  destruct forest as [l|]; [|reflexivity].
  apply (forest_ind
    (fun c => forall k,
       getChildWithId id (node_children c) =
         option_map spec_unwrap
           (find (fun n => String.eqb (node_id n) id)
                 (map fst (spec_preorder (node_children c) k))))
    (fun l => forall k,
       getChildWithId id (Some l) =
         option_map spec_unwrap
           (find (fun n => String.eqb (node_id n) id)
                 (map fst (spec_preorder (Some l) k))))).
  - reflexivity.
  - intros i n p l0 IH. exact IH.
  - reflexivity.
  - intros c rest IHc IHrest k.
    rewrite spec_preorder_cons. cbn [map fst find getChildWithId getChildWithId_loop].
    rewrite locateChild_eq.
    destruct (String.eqb (node_id c) id); [reflexivity|].
    rewrite map_app, find_app_first, (IHc (S k)).
    destruct (find _ (map fst (spec_preorder (node_children c) (S k)))) as [m|];
      [reflexivity|].
    cbn [option_map]. exact (IHrest k).
Qed.

Lemma filter_map_pointwise {A B : Type} (f : A -> B) (p : B -> bool) (q : A -> bool)
    (l : list A) :
  (forall x, In x l -> p (f x) = q x) ->
  filter p (map f l) = map f (filter q l).
Proof.
  induction l as [|a l IH]; intros H; cbn [map filter]; [reflexivity|].
  rewrite (H a) by now left.
  rewrite IH by (intros x Hx; apply H; now right).
  now destruct (q a).
Qed.

Lemma type_is_two (k : nat) :
  JS.strict_eq (JS.VString (JS.nat_to_string k)) (JS.VString "2") = Nat.eqb k 2.
Proof.
  cbn [JS.strict_eq].
  destruct (Nat.eqb_spec k 2) as [->|Hk]; [reflexivity|].
  apply String.eqb_neq. intros H. apply Hk.
  apply nat_to_string_inj. exact H.
Qed.

Lemma emitted_type (url : string) (n : ProfileNode) (level : nat) :
  (1 <= level)%nat ->
  item_type (emitted url (n, level)) = JS.VString (JS.nat_to_string level).
Proof.
  intros H. unfold emitted. rewrite createChild_type. cbn [snd].
  now replace (level - 1 + 1)%nat with level by lia.
Qed.

(** The final sequence: the pre-order listing without its second level,
    each entry turned into its item and completed for the session. *)
Lemma flatten_displayed (url sid : string) (response : Response) :
  parseDescriptionFromWatsonResponse url sid response =
    map (fun entry => annotate sid (emitted url entry))
        (spec_displayed (node_children (tree response))).
Proof.
  unfold parseDescriptionFromWatsonResponse, spec_displayed.
  rewrite parseChildren_preorder.
  rewrite (filter_map_pointwise (emitted url) _
             (fun entry => negb (Nat.eqb (snd entry) 2))).
  - now rewrite map_map.
  - intros [n level] Hin. cbn [snd].
    apply spec_preorder_level in Hin.
    now rewrite emitted_type, type_is_two.
Qed.

Lemma Forall2_map_right {A B : Type} (R : A -> B -> Prop) (f : A -> B) (l : list A) :
  (forall x, In x l -> R x (f x)) -> Forall2 R l (map f l).
Proof.
  induction l as [|a l IH]; intros H; cbn [map]; constructor.
  - apply H. now left.
  - apply IH. intros x Hx. apply H. now right.
Qed.

(** What [items.forEach] leaves untouched, and what it computes. *)
Lemma annotate_kept (sid : string) (item : Item) :
  item_id (annotate sid item) = item_id item
  /\ item_name (annotate sid item) = item_name item
  /\ item_value (annotate sid item) = item_value item
  /\ item_type (annotate sid item) = item_type item
  /\ item_hasChildren (annotate sid item) = item_hasChildren item.
Proof. unfold annotate. now destruct (JS.truthy (item_graphURL item)). Qed.

Lemma annotate_flags (sid : string) (item : Item) :
  item_isHeader (annotate sid item) = JS.VBoolean (isHeader (annotate sid item))
  /\ item_isSubheader (annotate sid item) = JS.VBoolean (isSubheader (annotate sid item))
  /\ item_isLeaf (annotate sid item) = JS.VBoolean (isLeaf (annotate sid item)).
Proof. unfold annotate. now destruct (JS.truthy (item_graphURL item)). Qed.

(** ** The claims about the flattener *)

(** C3: every displayed item carries hasChildren = "true" exactly when the
    node it comes from has a [children] field, and "false" exactly when it
    has none; an empty [children] array counts as present. *)
Theorem hasChildren_iff_children_present (url sid : string) (response : Response) :
  Forall2
    (fun entry item =>
       (item_hasChildren item = JS.VString "true" <-> node_children (fst entry) <> None)
       /\ (item_hasChildren item = JS.VString "false" <-> node_children (fst entry) = None)
       /\ (node_children (fst entry) = Some [] -> item_hasChildren item = JS.VString "true"))
    (spec_displayed (node_children (tree response)))
    (parseDescriptionFromWatsonResponse url sid response).
Proof.
  rewrite flatten_displayed. apply Forall2_map_right.
  intros [n level] _. cbn [fst].
  destruct (annotate_kept sid (emitted url (n, level))) as (_ & _ & _ & _ & ->).
  unfold emitted. rewrite createChild_hasChildren. cbn [fst].
  destruct (node_children n) as [l|].
  - repeat split; try discriminate; try reflexivity; intros H; now elim H.
  - repeat split; try discriminate; try reflexivity. intros H. now elim H.
Qed.

(** C5: the final sequence holds no item of type "2", and every node of
    the tree at level 3 or deeper still has its item there. *)
Theorem no_item_of_type_two (url sid : string) (response : Response) :
  Forall (fun item => item_type item <> JS.VString "2")
         (parseDescriptionFromWatsonResponse url sid response)
  /\ (forall n level,
        In (n, level) (spec_preorder (node_children (tree response)) 1) ->
        (3 <= level)%nat ->
        In (annotate sid (emitted url (n, level)))
           (parseDescriptionFromWatsonResponse url sid response)).
Proof.
  rewrite flatten_displayed. split.
  - apply Forall_forall. intros item Hin.
    apply in_map_iff in Hin. destruct Hin as ([n level] & <- & Hin).
    unfold spec_displayed in Hin. apply filter_In in Hin. destruct Hin as [Hin Hlevel].
    destruct (annotate_kept sid (emitted url (n, level))) as (_ & _ & _ & -> & _).
    rewrite emitted_type by (apply spec_preorder_level in Hin; exact Hin).
    intros H. apply strict_eq_string in H. rewrite type_is_two in H.
    cbn [snd] in Hlevel. now rewrite H in Hlevel.
  - intros n level Hin Hlevel.
    apply (in_map (fun entry => annotate sid (emitted url entry))).
    unfold spec_displayed. apply filter_In. split; [exact Hin|].
    cbn [snd]. destruct (Nat.eqb_spec level 2); [lia | reflexivity].
Qed.

(** C6: on every displayed item the three flags are booleans with
    isHeader true exactly for type "1", isSubheader true exactly for type "3"
    with hasChildren "true", isLeaf true exactly for hasChildren "false" with
    type "3" or "4"; a header is never also a subheader or a leaf. *)
Theorem classification_flags (url sid : string) (response : Response) :
  Forall
    (fun item =>
       exists h s l,
         item_isHeader item = JS.VBoolean h
         /\ item_isSubheader item = JS.VBoolean s
         /\ item_isLeaf item = JS.VBoolean l
         /\ (h = true <-> item_type item = JS.VString "1")
         /\ (s = true <->
               item_type item = JS.VString "3"
               /\ item_hasChildren item = JS.VString "true")
         /\ (l = true <->
               item_hasChildren item = JS.VString "false"
               /\ (item_type item = JS.VString "3" \/ item_type item = JS.VString "4"))
         /\ ~ (h = true /\ s = true)
         /\ ~ (h = true /\ l = true))
    (parseDescriptionFromWatsonResponse url sid response).
Proof.
  rewrite flatten_displayed. apply Forall_forall. intros item Hin.
  apply in_map_iff in Hin. destruct Hin as (entry & <- & _).
  destruct (annotate_flags sid (emitted url entry)) as (Hh & Hs & Hl).
  set (item := annotate sid (emitted url entry)) in *.
  exists (isHeader item), (isSubheader item), (isLeaf item).
  assert (Eh : isHeader item = true <-> item_type item = JS.VString "1")
    by apply strict_eq_string.
  assert (Es : isSubheader item = true <->
               item_type item = JS.VString "3"
               /\ item_hasChildren item = JS.VString "true").
  { unfold isSubheader. rewrite andb_true_iff, !strict_eq_string. reflexivity. }
  assert (El : isLeaf item = true <->
               item_hasChildren item = JS.VString "false"
               /\ (item_type item = JS.VString "3" \/ item_type item = JS.VString "4")).
  { unfold isLeaf. rewrite andb_true_iff, orb_true_iff, !strict_eq_string. reflexivity. }
  refine (conj Hh (conj Hs (conj Hl (conj Eh (conj Es (conj El (conj _ _))))))).
  - intros [H1 H2]. apply Eh in H1. apply Es in H2. destruct H2 as [H2 _].
    rewrite H1 in H2. discriminate.
  - intros [H1 H2]. apply Eh in H1. apply El in H2. destruct H2 as [_ [H2|H2]];
      rewrite H1 in H2; discriminate.
Qed.

(** C9: before filtering, the items come in pre-order: a node, then
    everything below it one level deeper, then its next sibling; the
    children of the root are at level 1, the root itself yields no item, and
    each item's type is its node's level printed in decimal.  The final
    sequence keeps that order. *)
Theorem flattener_emits_in_preorder (url sid : string) (response : Response) :
  let forest := node_children (tree response) in
  parseChildren url forest 0 = map (emitted url) (spec_preorder forest 1)
  /\ Forall
       (fun entry =>
          item_id (emitted url entry) = JS.VString (node_id (fst entry))
          /\ item_type (emitted url entry) = JS.VString (JS.nat_to_string (snd entry))
          /\ (1 <= snd entry)%nat)
       (spec_preorder forest 1)
  /\ parseDescriptionFromWatsonResponse url sid response =
       map (fun entry => annotate sid (emitted url entry)) (spec_displayed forest)
  /\ (forall c rest level,
        spec_preorder (Some (c :: rest)) level =
          ((c, level) :: spec_preorder (node_children c) (S level)
             ++ spec_preorder (Some rest) level)%list)
  /\ (forall c rest nestLevel,
        parseChildren url (Some (c :: rest)) nestLevel =
          (createChildFromJSON url c nestLevel
             :: parseChildren url (node_children c) (nestLevel + 1)
             ++ parseChildren url (Some rest) nestLevel)%list).
Proof.
  intros forest. split; [apply parseChildren_preorder|].
  split; [|split; [apply flatten_displayed|]].
  - apply Forall_forall. intros [n level] Hin.
    apply spec_preorder_level in Hin. cbn [fst snd].
    split; [apply createChild_id|]. split; [now apply emitted_type | exact Hin].
  - split; [apply spec_preorder_cons | apply parseChildren_cons].
Qed.

(** ** The claims about the locator *)

(** C4: the locator returns the first node in pre-order whose id is the
    target, replaced by its only child when it has exactly one child and
    returned as it is when it has none or several. *)
Theorem locator_first_match_unwrapped (id : string)
    (forest : option (list ProfileNode)) :
  getChildWithId id forest =
    match spec_first_match id forest with
    | Some m =>
        Some match node_children m with
             | Some [only] => only
             | _ => m
             end
    | None => None
    end
  /\ (forall m, spec_first_match id forest = Some m -> node_id m = id)
  /\ (forall m only,
        spec_first_match id forest = Some m ->
        node_children m = Some [only] ->
        getChildWithId id forest = Some only)
  /\ (forall m,
        spec_first_match id forest = Some m ->
        (forall only, node_children m <> Some [only]) ->
        getChildWithId id forest = Some m).
Proof.
  assert (E : getChildWithId id forest =
              option_map spec_unwrap (spec_first_match id forest))
    by apply getChildWithId_preorder.
  split; [|split; [|split]].
  - rewrite E. now destruct (spec_first_match id forest).
  - intros m Hm. apply find_some in Hm. now apply String.eqb_eq.
  - intros m only Hm Hc. rewrite E, Hm. unfold spec_unwrap. cbn. now rewrite Hc.
  - intros m Hm Hc. rewrite E, Hm. unfold spec_unwrap. cbn.
    destruct (node_children m) as [[|x [|y l]]|]; try reflexivity.
    now elim (Hc x).
Qed.

Lemma find_all_false {A : Type} (f : A -> bool) (l : list A) :
  Forall (fun x => f x = false) l -> find f l = None.
Proof.
  induction 1 as [|a l Ha _ IH]; cbn; [reflexivity|]. now rewrite Ha.
Qed.

(** C7: when no node of the tree carries the target id, the locator
    returns the absence marker. *)
Theorem locator_miss_is_absent (id : string) (forest : option (list ProfileNode)) :
  Forall (fun entry => node_id (fst entry) <> id) (spec_preorder forest 1) ->
  getChildWithId id forest = None.
Proof.
  intros H. rewrite (getChildWithId_preorder id forest 1).
  rewrite find_all_false; [reflexivity|].
  apply Forall_map. eapply Forall_impl; [|exact H].
  intros entry Hne. now apply String.eqb_neq.
Qed.

Lemma locator_miss_is_absent_witness :
  Forall (fun entry => node_id (fst entry) <> "Prudence")
         (spec_preorder (node_children (tree sample_profile)) 1)
  /\ getChildWithId "Prudence" (node_children (tree sample_profile)) = None.
Proof.
  assert (H : Forall (fun entry => node_id (fst entry) <> "Prudence")
                     (spec_preorder (node_children (tree sample_profile)) 1))
    by (vm_compute; repeat constructor; discriminate).
  split; [exact H | exact (locator_miss_is_absent _ _ H)].
Defined.

Example locate_wrapper_gives_only_child :
  getChildWithId "personality" (node_children (tree sample_profile))
  = Some openness_parent.
Proof. reflexivity. Qed.

Example locate_needs_gives_needs :
  getChildWithId "needs" (node_children (tree sample_profile)) = Some needs.
Proof. reflexivity. Qed.

(** ** The graph annotation *)

Lemma indexOf_from_In (arr : list string) (x : string) :
  forall i, 0 <= i -> ((-1 <? indexOf_from arr (JS.VString x) i) = true <-> In x arr).
Proof.
  induction arr as [|a arr IH]; intros i Hi; cbn [indexOf_from In JS.strict_eq].
  - split; [discriminate | intros []].
  - destruct (String.eqb_spec a x) as [->|Hne].
    + split; [now left | intros _; apply Z.ltb_lt; lia].
    + rewrite IH by lia. split; [now right | intros [H|H]; [contradiction | exact H]].
Qed.

Lemma createChild_graphURL (url : string) (json : ProfileNode) (lvl : nat) :
  (In (node_id json) idsWithGraphs ->
   item_graphURL (createChildFromJSON url json lvl)
   = JS.VString ((url ++ "/getGraph/") ++ node_id json))
  /\ (~ In (node_id json) idsWithGraphs ->
      item_graphURL (createChildFromJSON url json lvl) = JS.VUndefined).
Proof.
  unfold createChildFromJSON, indexOf. cbn [item_id JS.to_string].
  pose proof (indexOf_from_In idsWithGraphs (node_id json) 0 (Z.le_refl 0)) as H.
  destruct (-1 <? indexOf_from idsWithGraphs (JS.VString (node_id json)) 0).
  - split; [reflexivity|]. intros Hn. elim Hn. now apply H.
  - split; [|reflexivity]. intros Hin. apply H in Hin. discriminate.
Qed.

(** C2, as the code has it: a displayed item whose id is on the allow-list
    carries showGraph = the string "true" and graphURL = base URL +
    "/getGraph/" + id + "/?sessionId=" + session id; any other displayed item
    carries showGraph = the string "false" and no graphURL. *)
Theorem graph_annotation_by_allow_list (url sid : string) (response : Response) :
  Forall2
    (fun entry item =>
       (In (node_id (fst entry)) idsWithGraphs ->
        item_showGraph item = JS.VString "true"
        /\ item_graphURL item =
             JS.VString (url ++ "/getGraph/" ++ node_id (fst entry)
                             ++ "/?sessionId=" ++ sid))
       /\ (~ In (node_id (fst entry)) idsWithGraphs ->
           item_showGraph item = JS.VString "false"
           /\ item_graphURL item = JS.VUndefined))
    (spec_displayed (node_children (tree response)))
    (parseDescriptionFromWatsonResponse url sid response).
Proof.
  rewrite flatten_displayed. apply Forall2_map_right.
  intros [n level] _. cbn [fst]. unfold emitted. cbn [fst snd].
  destruct (createChild_graphURL url n (level - 1)) as [Hyes Hno].
  split; intros Hin.
  - specialize (Hyes Hin). unfold annotate. rewrite Hyes.
    cbn [JS.truthy]. rewrite append_nonempty.
    cbn [negb item_showGraph item_graphURL JS.to_string].
    split; [reflexivity|]. now rewrite !append_assoc.
  - specialize (Hno Hin). unfold annotate. rewrite Hno.
    cbn [JS.truthy item_showGraph item_graphURL]. now split.
Qed.

(** C2 as stated fails on a profile whose only node is "Openness": the item
    has the string "true", not the boolean, and its URL has a slash before
    the query. *)
Lemma graph_annotation_counterexample :
  let response := mkResponse (mkNode "r" "root" None (Some [leaf "Openness" "Openness" None])) in
  let items := parseDescriptionFromWatsonResponse "http://host" "s1" response in
  map item_showGraph items = [JS.VString "true"]
  /\ JS.VString "true" <> JS.VBoolean true
  /\ map item_graphURL items = [JS.VString "http://host/getGraph/Openness/?sessionId=s1"]
  /\ JS.VString "http://host/getGraph/Openness/?sessionId=s1"
     <> JS.VString ("http://host" ++ "/getGraph/" ++ "Openness" ++ "?sessionId=" ++ "s1").
Proof.
  cbv zeta. split; [reflexivity|]. split; [discriminate|].
  split; [reflexivity | discriminate].
Qed.

(** ** The chart data *)

Lemma createChartData_from_length (children : list ProfileNode) :
  forall k, List.length (createChartData_from children k) = List.length children.
Proof.
  induction children as [|c rest IH]; intros k; cbn [createChartData_from List.length];
    [reflexivity | now rewrite IH].
Qed.

Lemma createChartData_from_nth (children : list ProfileNode) :
  forall k i slice,
    nth_error (createChartData_from children k) i = Some slice ->
    slice_color slice = array_get colors (Nat.modulo (k + i) 6)
    /\ slice_highlight slice = array_get highlights (Nat.modulo (k + i) 6)
    /\ exists child,
         nth_error children i = Some child
         /\ slice_label slice = JS.VString (node_name child)
         /\ slice_value slice =
              JS.VString (JS.toFixed (JS.mul (to_number (node_percentage child)) JS.hundred) 2).
Proof.
  induction children as [|c rest IH]; intros k i slice H.
  - destruct i; discriminate.
  - destruct i as [|i]; cbn [createChartData_from nth_error] in H.
    + inversion H; subst slice; clear H. cbn [slice_color slice_highlight slice_label slice_value].
      rewrite Nat.add_0_r. repeat split. exists c. now repeat split.
    + apply IH in H. replace (k + S i)%nat with (k + 1 + i)%nat by lia. exact H.
Qed.

Lemma palette_entry (palette : list string) (i : nat) :
  List.length palette = 6%nat -> array_get palette (Nat.modulo i 6) <> JS.VUndefined.
Proof.
  intros Hlen. unfold array_get.
  destruct (nth_error palette (Nat.modulo i 6)) eqn:E; [discriminate|].
  apply nth_error_None in E.
  pose proof (Nat.mod_upper_bound i 6). lia.
Qed.

(** C10: for a node that has a [children] array, the chart has one slice
    per child, slice [i] takes entry [i mod 6] of each of the two six-entry
    palettes, and slices [i] and [i + 6] are coloured alike. *)
Theorem chart_palette_cycles (rootJSON : ProfileNode) (children : list ProfileNode) :
  node_children rootJSON = Some children ->
  exists data,
    createChartData rootJSON = Normal data
    /\ List.length data = List.length children
    /\ List.length colors = 6%nat
    /\ List.length highlights = 6%nat
    /\ (forall i slice,
          nth_error data i = Some slice ->
          slice_color slice = array_get colors (Nat.modulo i 6)
          /\ slice_highlight slice = array_get highlights (Nat.modulo i 6)
          /\ slice_color slice <> JS.VUndefined
          /\ slice_highlight slice <> JS.VUndefined)
    /\ (forall i s1 s2,
          nth_error data i = Some s1 ->
          nth_error data (i + 6) = Some s2 ->
          slice_color s1 = slice_color s2 /\ slice_highlight s1 = slice_highlight s2).
Proof.
  intros Hc. exists (createChartData_from children 0).
  unfold createChartData. rewrite Hc.
  split; [reflexivity|]. split; [apply createChartData_from_length|].
  split; [reflexivity|]. split; [reflexivity|]. split.
  - intros i slice H. apply createChartData_from_nth in H.
    destruct H as (Hcol & Hhi & _). cbn [Nat.add] in Hcol, Hhi.
    rewrite Hcol, Hhi. repeat split; now apply palette_entry.
  - intros i s1 s2 H1 H2.
    apply createChartData_from_nth in H1, H2.
    destruct H1 as (C1 & H1 & _), H2 as (C2 & H2 & _). cbn [Nat.add] in *.
    assert (E : Nat.modulo (i + 6) 6 = Nat.modulo i 6)
      by (rewrite <- (Nat.Div0.mod_add i 1 6); f_equal).
    rewrite E in C2, H2. now rewrite C1, C2, H1, H2.
Qed.

Lemma chart_palette_cycles_witness :
  node_children eight_children
  = Some (map (fun name => leaf name name (Some pct_0_5))
              ["c0"; "c1"; "c2"; "c3"; "c4"; "c5"; "c6"; "c7"])
  /\ exists data,
       createChartData eight_children = Normal data
       /\ List.length data = 8%nat
       /\ List.length colors = 6%nat
       /\ List.length highlights = 6%nat
       /\ (forall i slice,
             nth_error data i = Some slice ->
             slice_color slice = array_get colors (Nat.modulo i 6)
             /\ slice_highlight slice = array_get highlights (Nat.modulo i 6)
             /\ slice_color slice <> JS.VUndefined
             /\ slice_highlight slice <> JS.VUndefined)
       /\ (forall i s1 s2,
             nth_error data i = Some s1 ->
             nth_error data (i + 6) = Some s2 ->
             slice_color s1 = slice_color s2 /\ slice_highlight s1 = slice_highlight s2).
Proof.
  split; [reflexivity|].
  exact (chart_palette_cycles eight_children _ eq_refl).
Defined.

Example chart_seventh_like_first :
  match createChartData eight_children with
  | Normal data => map slice_color data
  | ThrowTypeError => []
  end
  = [JS.VString "#4178BD"; JS.VString "#9854D4"; JS.VString "#01B4A0";
     JS.VString "#D74009"; JS.VString "#323232"; JS.VString "#EDC01C";
     JS.VString "#4178BD"; JS.VString "#9854D4"].
Proof. reflexivity. Qed.

(** ** Size of a rounded product *)

Section Rounding.

Lemma digits2_upper (p : positive) : Z.pos p < 2 ^ Z.pos (digits2_pos p).
Proof.
  induction p as [p IH|p IH|]; cbn [digits2_pos]; [| |reflexivity];
    rewrite Pos2Z.inj_succ, Z.pow_succ_r by lia; lia.
Qed.

Lemma digits2_lower (p : positive) : 2 ^ (Z.pos (digits2_pos p) - 1) <= Z.pos p.
Proof.
  induction p as [p IH|p IH|]; cbn [digits2_pos]; [| |reflexivity];
    rewrite Pos2Z.inj_succ;
    replace (Z.succ (Z.pos (digits2_pos p)) - 1) with (Z.succ (Z.pos (digits2_pos p) - 1)) by lia;
    rewrite Z.pow_succ_r by lia; lia.
Qed.

Lemma Zdigits2_upper (x : Z) : 0 <= x -> x < 2 ^ Zdigits2 x.
Proof.
  destruct x as [|p|p]; intros H; [reflexivity | apply digits2_upper | lia].
Qed.

Lemma Zdigits2_le (x k : Z) : 0 <= x -> 0 <= k -> x <= 2 ^ k -> Zdigits2 x <= k + 1.
Proof.
  intros Hx Hk H. destruct x as [|p|p]; [cbn; lia | | lia].
  cbn [Zdigits2]. pose proof (digits2_lower p) as L.
  destruct (Z.le_gt_cases (Z.pos (digits2_pos p)) (k + 1)) as [|G]; [assumption|].
  assert (2 ^ (k + 1) <= 2 ^ (Z.pos (digits2_pos p) - 1)) by (apply Z.pow_le_mono_r; lia).
  rewrite Z.pow_add_r in * by lia. lia.
Qed.

Lemma shr_1_half (mrs : shr_record) :
  0 <= shr_m mrs -> shr_m (shr_1 mrs) = shr_m mrs / 2.
Proof.
  destruct mrs as [m r s]. cbn [shr_m]. intros H.
  destruct m as [|[p|p|]|p]; cbn [shr_1 shr_m]; try reflexivity; try lia.
  - apply Z.div_unique with (r := 1); lia.
  - apply Z.div_unique with (r := 0); lia.
Qed.

Lemma pow2_xO (p : positive) : 2 ^ Z.pos p~0 = 2 ^ Z.pos p * 2 ^ Z.pos p.
Proof. rewrite <- Z.pow_add_r by lia. f_equal. lia. Qed.

Lemma pow2_xI (p : positive) : 2 ^ Z.pos p~1 = 2 * (2 ^ Z.pos p * 2 ^ Z.pos p).
Proof. rewrite <- Z.pow_add_r, <- Z.pow_succ_r by lia. f_equal. lia. Qed.

Lemma iter_shr_1 (p : positive) :
  forall mrs, 0 <= shr_m mrs ->
              shr_m (iter_pos shr_1 p mrs) = shr_m mrs / 2 ^ Z.pos p.
Proof.
  assert (nonneg : forall a b, 0 <= a -> 0 < b -> 0 <= a / b)
    by (intros; apply Z.div_pos; lia).
  assert (pos : forall q, 0 < 2 ^ Z.pos q) by (intros; apply Z.pow_pos_nonneg; lia).
  induction p as [p IH|p IH|]; intros mrs H; cbn [iter_pos].
  - assert (H1 : 0 <= shr_m (shr_1 mrs)) by (rewrite shr_1_half by exact H; apply nonneg; lia).
    assert (H2 : 0 <= shr_m (iter_pos shr_1 p (shr_1 mrs)))
      by (rewrite IH by exact H1; apply nonneg; [exact H1 | apply pos]).
    rewrite IH, IH, shr_1_half by assumption.
    pose proof (pos p).
    rewrite !Z.div_div by lia. now rewrite pow2_xI.
  - assert (H2 : 0 <= shr_m (iter_pos shr_1 p mrs))
      by (rewrite IH by exact H; apply nonneg; [exact H | apply pos]).
    rewrite IH, IH by assumption.
    pose proof (pos p).
    rewrite Z.div_div by lia. now rewrite pow2_xO.
  - now rewrite shr_1_half.
Qed.

(** Shifting to the exponent [fexp] asks for leaves fewer than 2^53 in the
    mantissa and raises the exponent to at most what [fexp] gives. *)
Lemma shr_fexp_bounds (m e : Z) (l : location) :
  0 <= m ->
  let '(mrs, e') := shr_fexp JS.prec JS.emax m e l in
  0 <= shr_m mrs < 2 ^ 53
  /\ shr_m mrs <= m
  /\ e' = Z.max e (fexp JS.prec JS.emax (Zdigits2 m + e)).
Proof.
  intros Hm. unfold shr_fexp, shr.
  set (f := fexp JS.prec JS.emax (Zdigits2 m + e)).
  assert (Hf : Zdigits2 m + e - 53 <= f) by (unfold f, fexp, JS.prec; lia).
  assert (Hrec : shr_m (shr_record_of_loc m l) = m) by (now destruct l as [|[]]).
  pose proof (Zdigits2_upper m Hm) as Hd.
  assert (Hd0 : 0 <= Zdigits2 m) by (destruct m; cbn; lia).
  destruct (f - e) as [|n|n] eqn:E.
  - rewrite Hrec. repeat split; try lia.
    eapply Z.lt_le_trans; [exact Hd|]. apply Z.pow_le_mono_r; lia.
  - rewrite iter_shr_1 by (rewrite Hrec; exact Hm). rewrite Hrec.
    assert (P2 : 0 < 2 ^ Z.pos n) by (apply Z.pow_pos_nonneg; lia).
    repeat split; try lia.
    + apply Z.div_pos; lia.
    + apply Z.div_lt_upper_bound; [exact P2|].
      rewrite <- Z.pow_add_r by lia.
      eapply Z.lt_le_trans; [exact Hd|]. apply Z.pow_le_mono_r; lia.
    + apply Z.div_le_upper_bound; [exact P2|]. nia.
  - rewrite Hrec. repeat split; try lia.
    eapply Z.lt_le_trans; [exact Hd|]. apply Z.pow_le_mono_r; lia.
Qed.

Lemma round_nearest_even_bounds (m : Z) (l : location) :
  m <= round_nearest_even m l <= m + 1.
Proof.
  destruct l as [|[]]; cbn [round_nearest_even]; try lia.
  destruct (Z.even m); lia.
Qed.

(** Rounding a positive product below 2^(106-98) = 2^8 gives a finite
    positive number (or zero) with a negative exponent. *)
Lemma binary_round_aux_small (mx ex : Z) :
  0 < mx < 2 ^ 106 -> ex <= -98 ->
  match binary_round_aux JS.prec JS.emax false mx ex loc_Exact with
  | S754_zero false => True
  | S754_finite false m e => Z.pos m < 2 ^ 53 /\ e < 0
  | _ => False
  end.
Proof.
  intros Hm He. unfold binary_round_aux.
  pose proof (shr_fexp_bounds mx ex loc_Exact ltac:(lia)) as B1.
  destruct (shr_fexp JS.prec JS.emax mx ex loc_Exact) as [mrs1 e1].
  destruct B1 as (M1 & _ & E1).
  pose proof (round_nearest_even_bounds (shr_m mrs1) (loc_of_shr_record mrs1)) as R.
  set (r := round_nearest_even (shr_m mrs1) (loc_of_shr_record mrs1)) in *.
  pose proof (shr_fexp_bounds r e1 loc_Exact ltac:(lia)) as B2.
  destruct (shr_fexp JS.prec JS.emax r e1 loc_Exact) as [mrs2 e2].
  destruct B2 as (M2 & _ & E2).
  assert (D1 : Zdigits2 mx <= 107) by (apply (Zdigits2_le mx 106); lia).
  assert (D2 : Zdigits2 r <= 54) by (apply (Zdigits2_le r 53); lia).
  unfold fexp, emin, JS.prec, JS.emax in E1, E2.
  assert (He2 : e2 < 0) by lia.
  destruct (shr_m mrs2) as [|m|m]; [exact I | | lia].
  unfold JS.emax, JS.prec.
  replace (e2 <=? 1024 - 53) with true by (symmetry; apply Z.leb_le; lia).
  split; [apply M2 | exact He2].
Qed.

(** The product of 100 and a number in (0, 1] stays far below 10^21. *)
Lemma mul_hundred_small (p : JS.number) :
  valid_binary JS.prec JS.emax p = true ->
  SFltb (S754_zero false) p = true ->
  SFleb p JS.one = true ->
  match JS.mul p JS.hundred with
  | S754_zero false => True
  | S754_finite false m e => Z.pos m < 2 ^ 53 /\ e < 0
  | _ => False
  end.
Proof.
  intros Hv Hpos Hle.
  destruct p as [s|s| |s m e]; try discriminate.
  - destruct s; discriminate.
  - destruct s; [discriminate|].
    unfold JS.mul, JS.hundred, SFmul. cbn [xorb].
    apply binary_round_aux_small.
    + cbn [valid_binary] in Hv. unfold bounded, canonical_mantissa in Hv.
      apply andb_prop in Hv. destruct Hv as [Hc _]. apply Z.eqb_eq in Hc.
      unfold fexp, emin, JS.prec, JS.emax in Hc.
      pose proof (digits2_upper m) as U.
      assert (Z.pos m < 2 ^ 53).
      { eapply Z.lt_le_trans; [exact U|]. apply Z.pow_le_mono_r; lia. }
      rewrite Pos2Z.inj_mul. split; [lia|].
      change (2 ^ 106) with (2 ^ 53 * 2 ^ 53).
      apply Z.mul_lt_mono_nonneg; lia.
    + unfold SFleb, SFcompare, JS.one in Hle.
      destruct (e ?= -52) eqn:C; try discriminate.
      * apply Z.compare_eq in C. lia.
      * rewrite Z.compare_lt_iff in C. lia.
Qed.

Lemma hundredths_between (a n : Z) (d : positive) :
  200 * a - Z.pos d < 2 * Z.pos d * n <= 200 * a + Z.pos d ->
  (100 * (a # d) - (1 # 2) < inject_Z n <= 100 * (a # d) + (1 # 2))%Q.
Proof.
  intros [H1 H2].
  unfold Qlt, Qle, Qminus, Qplus, Qmult, Qopp, inject_Z. cbn [Qnum Qden].
  rewrite ?Pos2Z.inj_mul. split; lia.
Qed.

(** [nearest_scaled] is the two-decimal rounding of [m * 2^e]. *)
Lemma nearest_scaled_rounds (m : positive) (e : Z) :
  e < 0 ->
  0 <= JS.nearest_scaled m e 2
  /\ spec_rounded_hundredths (S754_finite false m e) (JS.nearest_scaled m e 2).
Proof.
  intros He. unfold spec_rounded_hundredths, finite_value, JS.nearest_scaled.
  replace (0 <=? e) with false by (symmetry; apply Z.leb_gt; exact He).
  change (10 ^ Z.of_nat 2) with 100.
  assert (Hd : 0 < 2 ^ (- e)) by (apply Z.pow_pos_nonneg; lia).
  replace (2 ^ (1 - e)) with (2 * 2 ^ (- e))
    by (rewrite <- Z.pow_succ_r by lia; f_equal; lia).
  set (d := 2 ^ (- e)) in *.
  set (n := (2 * Z.pos m * 100 + d) / (2 * d)).
  assert (Hn : 2 * d * n <= 2 * Z.pos m * 100 + d < 2 * d * n + 2 * d).
  { pose proof (Z.div_mod (2 * Z.pos m * 100 + d) (2 * d) ltac:(lia)) as E.
    pose proof (Z.mod_pos_bound (2 * Z.pos m * 100 + d) (2 * d) ltac:(lia)) as B.
    fold n in E. lia. }
  split; [apply Z.div_pos; lia|].
  apply hundredths_between. rewrite Z2Pos.id by exact Hd. lia.
Qed.

Lemma substring_all (s : string) : substring 0 (String.length s) s = s.
Proof. induction s as [|c s IH]; cbn; [reflexivity | now rewrite IH]. Qed.

Lemma substring_prefix (a b : string) : substring 0 (String.length a) (a ++ b) = a.
Proof.
  induction a as [|c a IH]; cbn; [now destruct b | now rewrite IH].
Qed.

Lemma substring_suffix (a b : string) :
  substring (String.length a) (String.length b) (a ++ b) = b.
Proof. induction a as [|c a IH]; cbn; [apply substring_all | exact IH]. Qed.

(** [toFixed]'s way of placing the decimal point gives the integer part,
    a point and the last two digits. *)
Lemma fixed_notation_two (n : Z) :
  0 <= n -> JS.fixed_notation n 2 = spec_two_decimals n.
Proof.
  intros Hn. unfold JS.fixed_notation, spec_two_decimals.
  destruct (Z.lt_ge_cases n 10) as [L1|L1]; [|destruct (Z.lt_ge_cases n 100) as [L2|L2]].
  - rewrite (decimal_small n) by lia.
    rewrite (Z.div_small n 100), (Z.div_small n 10), (Z.mod_small n 10) by lia.
    reflexivity.
  - rewrite (decimal_step n), (decimal_small (n / 10)) by
      (try split; try apply Z.div_pos; try apply Z.div_lt_upper_bound; lia).
    rewrite (Z.div_small n 100) by lia.
    rewrite (Z.mod_small (n / 10) 10) by
      (split; [apply Z.div_pos | apply Z.div_lt_upper_bound]; lia).
    reflexivity.
  - assert (H10 : 10 <= n / 10) by (apply Z.div_le_lower_bound; lia).
    rewrite (decimal_step n), (decimal_step (n / 10)) by lia.
    rewrite Z.div_div by lia. change (10 * 10) with 100.
    set (A := JS.decimal (n / 100)).
    set (d1 := JS.digit_char ((n / 10) mod 10)). set (d0 := JS.digit_char (n mod 10)).
    rewrite append_assoc.
    change (String d1 "" ++ String d0 "") with (String d1 (String d0 "")).
    assert (HA : (1 <= String.length A)%nat)
      by (apply decimal_length_pos, Z.div_pos; lia).
    rewrite length_append.
    change (String.length (String d1 (String d0 ""))) with 2%nat.
    replace (String.length A + 2 <=? 2)%nat with false
      by (symmetry; apply Nat.leb_gt; lia).
    cbv zeta. rewrite length_append.
    change (String.length (String d1 (String d0 ""))) with 2%nat.
    replace (String.length A + 2 - 2)%nat with (String.length A) by lia.
    rewrite substring_prefix.
    change 2%nat with (String.length (String d1 (String d0 ""))) at 1.
    now rewrite substring_suffix.
Qed.

End Rounding.

(** ** Percentages that are formatted *)

(** A percentage in (0, 1] is printed as the two-decimal rounding of its
    product with 100, followed by "%". *)
Lemma formatPercentage_in_unit_interval (p : JS.number) :
  valid_binary JS.prec JS.emax p = true ->
  SFltb (S754_zero false) p = true ->
  SFleb p JS.one = true ->
  exists n,
    0 <= n
    /\ spec_rounded_hundredths (JS.mul p JS.hundred) n
    /\ formatPercentage (Some p) = JS.VString (spec_two_decimals n ++ "%").
Proof.
  intros Hv Hpos Hle.
  pose proof (mul_hundred_small p Hv Hpos Hle) as B.
  assert (T : JS.number_truthy p = true).
  { destruct p as [s|s| |s m e]; try discriminate; reflexivity. }
  unfold formatPercentage. rewrite T.
  destruct (JS.mul p JS.hundred) as [[|]|s| |[|] m e]; try contradiction.
  - exists 0. split; [lia|]. split; [reflexivity|]. reflexivity.
  - destruct B as [Bm Be]. exists (JS.nearest_scaled m e 2).
    destruct (nearest_scaled_rounds m e Be) as [N0 N1].
    split; [exact N0|]. split; [exact N1|].
    unfold JS.toFixed, JS.finite_geb.
    replace (0 <=? e) with false by (symmetry; apply Z.leb_gt; exact Be).
    assert (Hd : 1 <= 2 ^ (- e)) by (apply (Z.pow_le_mono_r 2 0 (- e)); lia).
    replace (10 ^ 21 * 2 ^ (- e) <=? Z.pos m) with false.
    + now rewrite fixed_notation_two.
    + symmetry. apply Z.leb_gt.
      assert (2 ^ 53 < 10 ^ 21) by reflexivity. nia.
Qed.

Lemma formatPercentage_in_unit_interval_example :
  exists n,
    0 <= n
    /\ spec_rounded_hundredths (JS.mul pct_0_4212 JS.hundred) n
    /\ formatPercentage (Some pct_0_4212) = JS.VString (spec_two_decimals n ++ "%").
Proof.
  exact (formatPercentage_in_unit_interval pct_0_4212 eq_refl eq_refl eq_refl).
Defined.

Example formatPercentage_0_4212 :
  formatPercentage (Some pct_0_4212) = JS.VString "42.12%".
Proof. vm_compute. reflexivity. Qed.

Example formatPercentage_1 : formatPercentage (Some pct_1) = JS.VString "100.00%".
Proof. vm_compute. reflexivity. Qed.

(** On every displayed item the value is absent when the node has no
    percentage, and is the two-decimal text with "%" when the percentage is
    a number in (0, 1]. *)
Theorem value_of_displayed_items (url sid : string) (response : Response) :
  Forall2
    (fun entry item =>
       match node_percentage (fst entry) with
       | None => item_value item = JS.VUndefined
       | Some p =>
           valid_binary JS.prec JS.emax p = true ->
           SFltb (S754_zero false) p = true ->
           SFleb p JS.one = true ->
           exists n,
             0 <= n
             /\ spec_rounded_hundredths (JS.mul p JS.hundred) n
             /\ item_value item = JS.VString (spec_two_decimals n ++ "%")
       end)
    (spec_displayed (node_children (tree response)))
    (parseDescriptionFromWatsonResponse url sid response).
Proof.
  rewrite flatten_displayed. apply Forall2_map_right.
  intros [n level] _. cbn [fst].
  destruct (annotate_kept sid (emitted url (n, level))) as (_ & _ & -> & _).
  unfold emitted. rewrite createChild_value. cbn [fst].
  destruct (node_percentage n) as [p|]; [|reflexivity].
  apply formatPercentage_in_unit_interval.
Qed.

(** Flattening a root without children, or with an empty [children]
    array, gives the empty sequence. *)
Theorem flatten_without_children (url sid id name : string)
    (percentage : option JS.number) :
  parseDescriptionFromWatsonResponse url sid
    (mkResponse (mkNode id name percentage None)) = []
  /\ parseDescriptionFromWatsonResponse url sid
       (mkResponse (mkNode id name percentage (Some []))) = [].
Proof. split; reflexivity. Qed.

Example flatten_abcd_order :
  map item_id (parseChildren "http://host" (node_children (tree abcd_profile)) 0)
  = [JS.VString "A"; JS.VString "B"; JS.VString "C"; JS.VString "D"]
  /\ map item_type (parseChildren "http://host" (node_children (tree abcd_profile)) 0)
     = [JS.VString "1"; JS.VString "2"; JS.VString "2"; JS.VString "1"]
  /\ map item_id (parseDescriptionFromWatsonResponse "http://host" "s1" abcd_profile)
     = [JS.VString "A"; JS.VString "D"].
Proof. repeat split. Qed.

Example flatten_sample :
  map (fun item => (item_id item, item_type item, item_value item))
      (parseDescriptionFromWatsonResponse "http://host" "s1" sample_profile)
  = [(JS.VString "personality", JS.VString "1", JS.VUndefined);
     (JS.VString "Openness", JS.VString "3", JS.VString "42.12%");
     (JS.VString "Adventurousness", JS.VString "4", JS.VString "100.00%");
     (JS.VString "Intellect", JS.VString "4", JS.VString "50.00%");
     (JS.VString "needs", JS.VString "1", JS.VUndefined)].
Proof. vm_compute. reflexivity. Qed.

(** ** Where the program departs from its specification *)

(** C1: a node whose percentage is the number 0 gets no value at all, where
    formatting (0 * 100) to two decimals would give "0.00%"; the test
    [if (percentage)] takes the number 0 for a missing one. *)
Theorem zero_percentage_left_unformatted :
  formatPercentage (Some pct_0) = JS.VUndefined
  /\ JS.toFixed (JS.mul pct_0 JS.hundred) 2 ++ "%" = "0.00%"
  /\ map item_value
       (parseDescriptionFromWatsonResponse "http://host" "s1"
          (mkResponse (mkNode "r" "root" None (Some [liberty]))))
     = [JS.VUndefined].
Proof. repeat split. Qed.

(** C8: charting a node that has no [children] field throws: the handler
    reaches [createChartData] with the childless node the locator returned. *)
Theorem chart_of_childless_node_throws :
  getChildWithId "Adventurousness" (node_children (tree sample_profile))
  = Some adventurousness
  /\ createChartData adventurousness = ThrowTypeError
  /\ getGraph "Adventurousness" sample_profile = ThrowTypeError.
Proof. repeat split. Qed.

(** ** More about the flattener, the locator and the chart *)

Lemma nat_to_string_eqb (a b : nat) :
  String.eqb (JS.nat_to_string a) (JS.nat_to_string b) = Nat.eqb a b.
Proof.
  destruct (Nat.eqb_spec a b) as [->|Hne]; [apply String.eqb_refl|].
  apply String.eqb_neq. intros H. apply Hne. now apply nat_to_string_inj.
Qed.

(** The flags of every displayed item, read off its node: header at level
    1; subheader at level 3 with a [children] field; leaf at level 3 or 4
    without one.  A node at level 4 with children, and any node below level
    4, gets none of the three. *)
Theorem classification_by_level (url sid : string) (response : Response) :
  Forall2
    (fun entry item =>
       let level := snd entry in
       let parent := match node_children (fst entry) with Some _ => true | None => false end in
       item_isHeader item = JS.VBoolean (Nat.eqb level 1)
       /\ item_isSubheader item = JS.VBoolean (Nat.eqb level 3 && parent)
       /\ item_isLeaf item
          = JS.VBoolean (negb parent && (Nat.eqb level 3 || Nat.eqb level 4))
       /\ ((parent = true /\ level = 4%nat) \/ (5 <= level)%nat ->
           item_isHeader item = JS.VBoolean false
           /\ item_isSubheader item = JS.VBoolean false
           /\ item_isLeaf item = JS.VBoolean false))
    (spec_displayed (node_children (tree response)))
    (parseDescriptionFromWatsonResponse url sid response).
Proof.
  rewrite flatten_displayed. apply Forall2_map_right.
  intros [n level] Hin. cbv zeta. cbn [fst snd].
  unfold spec_displayed in Hin. apply filter_In in Hin. destruct Hin as [Hin _].
  apply spec_preorder_level in Hin.
  destruct (annotate_flags sid (emitted url (n, level))) as (-> & -> & ->).
  unfold isHeader, isSubheader, isLeaf.
  destruct (annotate_kept sid (emitted url (n, level))) as (_ & _ & _ & -> & ->).
  rewrite emitted_type by exact Hin.
  unfold emitted. rewrite createChild_hasChildren. cbn [fst JS.strict_eq].
  change "1" with (JS.nat_to_string 1). change "3" with (JS.nat_to_string 3).
  change "4" with (JS.nat_to_string 4).
  rewrite !nat_to_string_eqb.
  assert (E : (Nat.eqb level 1 = true -> level = 1%nat)
              /\ (Nat.eqb level 3 = true -> level = 3%nat)
              /\ (Nat.eqb level 4 = true -> level = 4%nat))
    by (repeat split; apply Nat.eqb_eq).
  destruct E as (E1 & E3 & E4).
  destruct (node_children n) as [l|]; cbn [String.eqb Ascii.eqb Bool.eqb andb negb];
    (split; [reflexivity|]); (split; [now rewrite ?andb_true_r, ?andb_false_r|]);
    (split; [reflexivity|]);
    intros [[Hp Hl]|Hl];
    destruct (Nat.eqb level 1) eqn:L1, (Nat.eqb level 3) eqn:L3, (Nat.eqb level 4) eqn:L4;
    try (specialize (E1 eq_refl)); try (specialize (E3 eq_refl));
    try (specialize (E4 eq_refl)); try lia; try discriminate; repeat split.
Qed.

Lemma children_listed (forest : option (list ProfileNode)) :
  forall k m level kids c,
    In (m, level) (spec_preorder forest k) ->
    node_children m = Some kids ->
    In c kids ->
    In c (map fst (spec_preorder forest k)).
Proof.
  destruct forest as [l|]; [|intros k m level kids c []].
  apply (forest_ind
    (fun n => forall k m level kids c,
       In (m, level) (spec_preorder (node_children n) k) ->
       node_children m = Some kids -> In c kids ->
       In c (map fst (spec_preorder (node_children n) k)))
    (fun l => forall k m level kids c,
       In (m, level) (spec_preorder (Some l) k) ->
       node_children m = Some kids -> In c kids ->
       In c (map fst (spec_preorder (Some l) k)))).
  - intros i nm p k m level kids c [].
  - intros i nm p l0 IH. exact IH.
  - intros k m level kids c [].
  - intros x rest IHx IHrest k m level kids c.
    rewrite spec_preorder_cons. cbn [In map fst]. rewrite map_app, !in_app_iff.
    intros [H|[H|H]] Hk Hc.
    + inversion H; subst m level. right. left.
      rewrite Hk. clear - Hc.
      induction kids as [|y kids IH]; [destruct Hc|].
      rewrite spec_preorder_cons. cbn [map fst In].
      destruct Hc as [->|Hc]; [now left|].
      right. rewrite map_app, in_app_iff. right. now apply IH.
    + right. left. eapply IHx; eassumption.
    + right. right. eapply IHrest; eassumption.
Qed.

(** Whenever some node of the tree carries the id, the locator returns a
    node, and what it returns is always a node of the tree. *)
Theorem locator_finds_present_id (id : string) (forest : option (list ProfileNode)) :
  Exists (fun entry => node_id (fst entry) = id) (spec_preorder forest 1) ->
  exists found,
    getChildWithId id forest = Some found
    /\ In found (map fst (spec_preorder forest 1)).
Proof.
  intros H. rewrite (getChildWithId_preorder id forest 1).
  destruct (find (fun n => String.eqb (node_id n) id) (map fst (spec_preorder forest 1)))
    as [m|] eqn:F.
  - exists (spec_unwrap m). split; [reflexivity|].
    apply find_some in F. destruct F as [Hin _].
    unfold spec_unwrap. destruct (node_children m) as [[|c [|d kids]]|] eqn:K; try exact Hin.
    apply in_map_iff in Hin. destruct Hin as ([m' level] & Hm & Hin). cbn in Hm. subst m'.
    eapply children_listed; [exact Hin | exact K | now left].
  - exfalso. apply Exists_exists in H. destruct H as (entry & Hin & Hid).
    pose proof (find_none _ _ F (fst entry) (in_map fst _ _ Hin)) as Hf.
    cbv beta in Hf. apply String.eqb_neq in Hf. contradiction.
Qed.

Lemma locator_finds_present_id_witness :
  Exists (fun entry => node_id (fst entry) = "Openness_parent")
         (spec_preorder (node_children (tree sample_profile)) 1)
  /\ exists found,
       getChildWithId "Openness_parent" (node_children (tree sample_profile)) = Some found
       /\ In found (map fst (spec_preorder (node_children (tree sample_profile)) 1)).
Proof.
  assert (H : Exists (fun entry => node_id (fst entry) = "Openness_parent")
                     (spec_preorder (node_children (tree sample_profile)) 1))
    by (vm_compute; right; left; reflexivity).
  split; [exact H | exact (locator_finds_present_id _ _ H)].
Defined.

(** The flattener gives the empty sequence exactly when the root has no
    [children] field or an empty [children] array. *)
Theorem flatten_empty_iff (url sid : string) (response : Response) :
  parseDescriptionFromWatsonResponse url sid response = []
  <-> node_children (tree response) = None \/ node_children (tree response) = Some [].
Proof.
  rewrite flatten_displayed. unfold spec_displayed.
  destruct (node_children (tree response)) as [[|c rest]|].
  - split; [now right | reflexivity].
  - rewrite spec_preorder_cons. cbn [filter snd Nat.eqb negb map].
    split; [discriminate | intros [H|H]; discriminate].
  - split; [now left | reflexivity].
Qed.

Lemma createChartData_from_labels (children : list ProfileNode) :
  forall k,
    map slice_label (createChartData_from children k)
    = map (fun child => JS.VString (node_name child)) children.
Proof.
  induction children as [|c rest IH]; intros k; cbn [createChartData_from map];
    [reflexivity | now rewrite IH].
Qed.

(** What [/getGraph] does with a stored profile: the not-found page exactly
    when no node of the tree carries the id; a TypeError exactly when the
    node the locator resolves to has no [children] field; otherwise the
    slices of the resolved node's children, labelled with their names in
    order. *)
Theorem getGraph_outcomes (watsonId : string) (insights : Response) :
  let forest := node_children (tree insights) in
  (getGraph watsonId insights = Normal NotFound404
   <-> Forall (fun entry => node_id (fst entry) <> watsonId) (spec_preorder forest 1))
  /\ (getGraph watsonId insights = ThrowTypeError
      <-> exists m,
            spec_first_match watsonId forest = Some m
            /\ node_children (spec_unwrap m) = None)
  /\ (forall data,
        getGraph watsonId insights = Normal (Rendered data) ->
        exists m children,
          spec_first_match watsonId forest = Some m
          /\ node_children (spec_unwrap m) = Some children
          /\ List.length data = List.length children
          /\ map slice_label data
             = map (fun child => JS.VString (node_name child)) children).
Proof.
  intros forest. unfold getGraph. fold forest.
  rewrite (getChildWithId_preorder watsonId forest 1).
  change (find (fun n => String.eqb (node_id n) watsonId) (map fst (spec_preorder forest 1)))
    with (spec_first_match watsonId forest).
  destruct (spec_first_match watsonId forest) as [m|] eqn:F; cbn [option_map].
  - assert (Hm : In m (map fst (spec_preorder forest 1)) /\ node_id m = watsonId).
    { apply find_some in F. destruct F as [Hin Heq]. split; [exact Hin|].
      now apply String.eqb_eq. }
    destruct Hm as [Hin Hid].
    assert (NotAll : ~ Forall (fun entry => node_id (fst entry) <> watsonId)
                       (spec_preorder forest 1)).
    { intros HF. apply in_map_iff in Hin. destruct Hin as (entry & <- & Hin).
      rewrite Forall_forall in HF. exact (HF entry Hin Hid). }
    unfold createChartData.
    destruct (node_children (spec_unwrap m)) as [children|] eqn:K.
    + split; [split; [discriminate | intros HF; now elim NotAll]|].
      split; [split; [discriminate | intros (m' & E & K'); congruence]|].
      intros data [= <-]. exists m, children.
      split; [reflexivity|]. split; [exact K|].
      split; [apply createChartData_from_length | apply createChartData_from_labels].
    + split; [split; [discriminate | intros HF; now elim NotAll]|].
      split; [split; [intros _; now exists m | reflexivity]|].
      intros data; discriminate.
  - split.
    + split; [intros _ | reflexivity].
      apply Forall_forall. intros entry Hin Hid.
      pose proof (find_none _ _ F (fst entry) (in_map fst _ _ Hin)) as Hf.
      cbv beta in Hf. apply String.eqb_neq in Hf. contradiction.
    + split; [split; [discriminate | intros (m & E & _); discriminate]|].
      intros data; discriminate.
Qed.

Lemma toFixed_in_unit_interval (p : JS.number) :
  valid_binary JS.prec JS.emax p = true ->
  SFltb (S754_zero false) p = true ->
  SFleb p JS.one = true ->
  exists n,
    0 <= n
    /\ spec_rounded_hundredths (JS.mul p JS.hundred) n
    /\ JS.toFixed (JS.mul p JS.hundred) 2 = spec_two_decimals n.
Proof.
  intros Hv Hpos Hle.
  destruct (formatPercentage_in_unit_interval p Hv Hpos Hle) as (n & Hn & Hr & Hf).
  exists n. split; [exact Hn|]. split; [exact Hr|].
  unfold formatPercentage in Hf.
  destruct (JS.number_truthy p); [|discriminate].
  injection Hf as Hf.
  change "%" with (String "%"%char "") in Hf.
  now apply append_last_inj in Hf.
Qed.

Lemma createChartData_from_Forall2 (children : list ProfileNode) :
  forall k,
    Forall2
      (fun child slice =>
         slice_label slice = JS.VString (node_name child)
         /\ slice_value slice
            = JS.VString (JS.toFixed (JS.mul (to_number (node_percentage child)) JS.hundred) 2))
      children (createChartData_from children k).
Proof.
  induction children as [|c rest IH]; intros k; cbn [createChartData_from];
    constructor; [now split | apply IH].
Qed.

(** For a node with a [children] array the chart has one slice per child,
    in order, labelled with the child's name.  The slice value is "NaN" for a
    child without percentage, "0.00" for a zero percentage, and for a
    percentage in (0, 1] the product with 100 rounded to two decimals,
    without a "%". *)
Theorem chart_slices_follow_children (rootJSON : ProfileNode)
    (children : list ProfileNode) :
  node_children rootJSON = Some children ->
  exists data,
    createChartData rootJSON = Normal data
    /\ Forall2
         (fun child slice =>
            slice_label slice = JS.VString (node_name child)
            /\ match node_percentage child with
               | None => slice_value slice = JS.VString "NaN"
               | Some p =>
                   (JS.number_truthy p = false /\ p <> JS.NaN ->
                    slice_value slice = JS.VString "0.00")
                   /\ (valid_binary JS.prec JS.emax p = true ->
                       SFltb (S754_zero false) p = true ->
                       SFleb p JS.one = true ->
                       exists n,
                         0 <= n
                         /\ spec_rounded_hundredths (JS.mul p JS.hundred) n
                         /\ slice_value slice = JS.VString (spec_two_decimals n))
               end)
         children data.
Proof.
  intros Hc. exists (createChartData_from children 0).
  unfold createChartData. rewrite Hc. split; [reflexivity|].
  eapply Forall2_impl; [|apply createChartData_from_Forall2].
  intros child slice [Hl Hv]. split; [exact Hl|].
  rewrite Hv. destruct (node_percentage child) as [p|]; cbn [to_number]; [|reflexivity].
  split.
  - intros [Hz Hn]. destruct p as [s|s| |s m e]; try discriminate; [|now elim Hn].
    now destruct s.
  - intros Hvalid Hpos Hle.
    destruct (toFixed_in_unit_interval p Hvalid Hpos Hle) as (n & H0 & Hr & Hf).
    exists n. now rewrite Hf.
Qed.

Lemma chart_slices_follow_children_witness :
  exists data,
    createChartData needs = Normal data
    /\ Forall2
         (fun child slice =>
            slice_label slice = JS.VString (node_name child)
            /\ match node_percentage child with
               | None => slice_value slice = JS.VString "NaN"
               | Some p =>
                   (JS.number_truthy p = false /\ p <> JS.NaN ->
                    slice_value slice = JS.VString "0.00")
                   /\ (valid_binary JS.prec JS.emax p = true ->
                       SFltb (S754_zero false) p = true ->
                       SFleb p JS.one = true ->
                       exists n,
                         0 <= n
                         /\ spec_rounded_hundredths (JS.mul p JS.hundred) n
                         /\ slice_value slice = JS.VString (spec_two_decimals n))
               end)
         [liberty; leaf "Love" "Love" (Some pct_0_5); leaf "Ideal" "Ideal" (Some pct_1)]
         data.
Proof. exact (chart_slices_follow_children needs _ eq_refl). Defined.

Example chart_values_of_needs :
  match createChartData needs with
  | Normal data => map slice_value data
  | ThrowTypeError => []
  end
  = [JS.VString "0.00"; JS.VString "50.00"; JS.VString "100.00"].
Proof. vm_compute. reflexivity. Qed.

Example chart_value_without_percentage :
  match createChartData (mkNode "x" "x" None (Some [leaf "y" "y" None])) with
  | Normal data => map slice_value data
  | ThrowTypeError => []
  end
  = [JS.VString "NaN"].
Proof. reflexivity. Qed.

(** ** The request handlers *)

Section HandlerFacts.

Context {S : Type}.
Variable env : Environment S.

(** After validation the unchecked reads are safe: both give the content. *)
Lemma isContentGiven_cases (req : Request) :
  body req <> JNull ->
  match spec_content (body req) with
  | Some content =>
      isContentGiven req = Done (Some content)
      /\ getContentUnchecked req = Done (Some content)
      /\ json_truthy content = true
  | None => exists v, isContentGiven req = Done v /\ truthy_opt v = false
  end.
Proof.
  intros Hb. unfold spec_content, isContentGiven, getContentUnchecked.
  destruct (body req) as [|b|x|s|items|fields]; try (now elim Hb);
    cbn [property bind]; try (exists None; now split).
  destruct (lookup "form" fields) as [form|]; [|exists None; now split].
  destruct form as [|b|x|s|items|form]; cbn [truthy_opt json_truthy property].
  - exists (Some JNull). now split.
  - destruct b; [exists None | exists (Some (JBool false))]; now split.
  - destruct (JS.number_truthy x) eqn:T; [exists None | exists (Some (JNumber x))];
      now split.
  - destruct (String.eqb s "") eqn:T; cbn [negb];
      [exists (Some (JString s)) | exists None]; cbn [truthy_opt json_truthy];
      try rewrite T; now split.
  - exists None. now split.
  - destruct (lookup "content" form) as [content|]; [|exists None; now split].
    destruct (json_truthy content) eqn:T; [now repeat split|].
    exists (Some content). now split.
Qed.

Lemma setContent_invalid (w : World S) (req : Request) :
  body req <> JNull \/ query_sessionId req = None ->
  query_sessionId req = None \/ spec_content (body req) = None ->
  setContent env w req
  = Done (sendPostError
            (JS.VString match query_sessionId req with
                        | None => "Invalid session ID!"
                        | Some _ => "Invalid content!"
                        end), w).
Proof.
  intros Hb Hinv. unfold setContent, checkSetContentRequestValidity, isSessionIDGiven,
    getSessionIDUnchecked.
  destruct (query_sessionId req) as [sid|]; [|reflexivity].
  destruct Hb as [Hb|Hb]; [|discriminate]. destruct Hinv as [Hinv|Hinv]; [discriminate|].
  pose proof (isContentGiven_cases req Hb) as C. rewrite Hinv in C.
  destruct C as (v & -> & Hv). cbn [bind]. now rewrite Hv.
Qed.

Lemma setContent_valid (w : World S) (req : Request) (sid : string) (content : JSON) :
  query_sessionId req = Some sid ->
  spec_content (body req) = Some content ->
  setContent env w req
  = match insights_profile env (Some content) with
    | inl err =>
        Done (sendPostError (JS.VString "Could not fetch Personality Insights"),
              log w (LogFetchFailed err))
    | inr response =>
        let doc :=
          spec_document (db_get env (store w) (Some sid)) (Some sid) (Some content)
            (JSON_stringify env response) (toLocaleString_now env) in
        match db_insert env (store w) doc (Some sid) with
        | (Some err, store') =>
            Done (sendPostError (JS.VString "Could not fetch Personality Insights"),
                  log (mkWorld store' (console w)) (LogInsertFailed err))
        | (None, store') => Done (sendPostSuccess, mkWorld store' (console w))
        end
    end.
Proof.
  intros Hs Hc.
  assert (Hb : body req <> JNull) by (intros E; rewrite E in Hc; discriminate).
  pose proof (isContentGiven_cases req Hb) as C. rewrite Hc in C.
  destruct C as (C1 & C2 & C3).
  unfold setContent, checkSetContentRequestValidity, isSessionIDGiven,
    processContentUnchecked, getSessionIDUnchecked.
  rewrite Hs, C1, C2. cbn [bind truthy_opt]. rewrite C3. cbn [negb bind].
  destruct (insights_profile env (Some content)) as [err|response]; [reflexivity|].
  unfold updateDatabaseContent, spec_document. cbv zeta.
  destruct (db_get env (store w) (Some sid)) as [e|data|];
    cbn [doc_sessionID doc_other];
    match goal with
    | |- context [db_insert env (store w) ?d (Some sid)] =>
        destruct (db_insert env (store w) d (Some sid)) as [[err|] store']
    end; reflexivity.
Qed.



(** A 200 from [/setContent] means the submitted content was analysed and
    the session document was written without error: the document holds the
    content, the serialized profile and the time, and keeps the session id
    and the other fields of the document read before (a failed or empty read
    counts as no document).  Nothing is logged. *)
Theorem setContent_success_persists (w w' : World S) (req : Request) (reply : Reply) :
  setContent env w req = Done (reply, w') ->
  status reply = 200%nat ->
  exists sid content response,
    query_sessionId req = Some sid
    /\ spec_content (body req) = Some content
    /\ insights_profile env (Some content) = inr response
    /\ db_insert env (store w)
         (spec_document (db_get env (store w) (Some sid)) (Some sid) (Some content)
            (JSON_stringify env response) (toLocaleString_now env))
         (Some sid)
       = (None, store w')
    /\ console w' = console w.
Proof.
  intros Hrun Hstatus.
  assert (Hb : body req <> JNull).
  { intros E. unfold setContent, checkSetContentRequestValidity, isSessionIDGiven,
      getSessionIDUnchecked, isContentGiven in Hrun. rewrite E in Hrun.
    destruct (query_sessionId req); cbn in Hrun; [discriminate|].
    injection Hrun as <- _. discriminate. }
  destruct (query_sessionId req) as [sid|] eqn:Hs;
    [destruct (spec_content (body req)) as [content|] eqn:Hc|].
  - rewrite (setContent_valid w req sid content Hs Hc) in Hrun.
    destruct (insights_profile env (Some content)) as [err|response] eqn:Hp.
    + injection Hrun as <- _. discriminate.
    + cbv zeta in Hrun.
      destruct (db_insert env (store w) _ (Some sid)) as [[err|] store'] eqn:Hi.
      * injection Hrun as <- _. discriminate.
      * injection Hrun as _ <-. exists sid, content, response.
        repeat split; try reflexivity; assumption.
  - rewrite (setContent_invalid w req) in Hrun by (try (left; exact Hb); now right).
    injection Hrun as <- _. discriminate.
  - rewrite (setContent_invalid w req) in Hrun by (try (left; exact Hb); now left).
    injection Hrun as <- _. discriminate.
Qed.

End HandlerFacts.

Lemma getChildWithId_of_present (id : string) (forest : option (list ProfileNode))
    (entry : ProfileNode * nat) :
  In entry (spec_preorder forest 1) ->
  node_id (fst entry) = id ->
  getChildWithId id forest <> None.
Proof.
  intros Hin Hid. rewrite (getChildWithId_preorder id forest 1).
  destruct (find (fun n => String.eqb (node_id n) id) (map fst (spec_preorder forest 1)))
    as [m|] eqn:F; [discriminate|].
  pose proof (find_none _ _ F (fst entry) (in_map fst _ _ Hin)) as Hf.
  cbv beta in Hf. apply String.eqb_neq in Hf. contradiction.
Qed.

Section ReadingHandlers.

Context {S : Type}.
Variable env : Environment S.

Lemma getLatestInsightsJSON_found (w : World S) (req : Request) (data : Doc)
    (text : string) :
  db_get env (store w) (query_sessionId req) = GetFound data ->
  doc_response data = Some text ->
  text <> "" ->
  getLatestInsightsJSON env w req
  = bind (JSON_parse env text) (fun insights => Done (Some insights, w)).
Proof.
  intros Hg Hr Ht. unfold getLatestInsightsJSON, getLatestResponse, getSessionIDUnchecked.
  rewrite Hg, Hr. apply String.eqb_neq in Ht. now rewrite Ht.
Qed.

Lemma getLatestInsightsJSON_some (w w1 : World S) (req : Request) (insights : Response) :
  getLatestInsightsJSON env w req = Done (Some insights, w1) ->
  w1 = w
  /\ exists data text,
       db_get env (store w) (query_sessionId req) = GetFound data
       /\ doc_response data = Some text
       /\ text <> ""
       /\ JSON_parse env text = Done insights.
Proof.
  unfold getLatestInsightsJSON, getLatestResponse, getSessionIDUnchecked.
  destruct (db_get env (store w) (query_sessionId req)) as [err|data|];
    try discriminate.
  destruct (doc_response data) as [text|] eqn:Hr; [|discriminate].
  destruct (String.eqb text "") eqn:Ht; cbn [negb]; [discriminate|].
  destruct (JSON_parse env text) as [parsed|e] eqn:Hp; cbn [bind]; [|discriminate].
  intros [= -> ->]. split; [reflexivity|]. exists data, text.
  repeat split; try assumption. now apply String.eqb_neq.
Qed.

Lemma getLatestInsightsJSON_session (w : World S) (req req2 : Request) :
  query_sessionId req2 = query_sessionId req ->
  getLatestInsightsJSON env w req2 = getLatestInsightsJSON env w req.
Proof.
  intros H. unfold getLatestInsightsJSON, getLatestResponse, getSessionIDUnchecked.
  now rewrite H.
Qed.

(** When the store holds no document for the session, or one without a
    non-empty [response], [/getDescription] answers 400 "No content defined
    for this session" and [/getGraph] answers the 404 page; nothing is
    parsed, nothing throws, and the store is left as it was. *)
Theorem handlers_without_stored_profile (w : World S) (req : Request) :
  match db_get env (store w) (query_sessionId req) with
  | GetFound data => doc_response data = None \/ doc_response data = Some ""
  | GetFailed _ | GetEmpty => True
  end ->
  exists w',
    store w' = store w
    /\ getDescription env w req
       = Done ({| status := 400;
                  reply_body :=
                    JsonMessage "Error" (JS.VString "No content defined for this session") |},
               w')
    /\ getGraph_handler env w req
       = Done ({| status := 404; reply_body := NotFoundPage |}, w').
Proof.
  unfold getDescription, getGraph_handler, getLatestInsightsJSON, getLatestResponse,
    getSessionIDUnchecked.
  destruct (db_get env (store w) (query_sessionId req)) as [err|data|]; intros H.
  - eexists. split; [|split; reflexivity]. reflexivity.
  - exists w. split; [reflexivity|]. destruct H as [-> | ->]; split; reflexivity.
  - eexists. split; [|split; reflexivity]. reflexivity.
Qed.

(** A submission the service analyses and the store accepts is answered
    with 200, and once the store returns the document it was given, a
    following [/getDescription] for the same session answers 200 with the
    flattening of that very profile (as [JSON.parse] reads back what
    [JSON.stringify] wrote), leaving the world as it is. *)
Theorem submitted_profile_is_described (w : World S) (req req2 : Request)
    (sid : string) (content : JSON) (response : Response) (store' : S) :
  query_sessionId req = Some sid ->
  spec_content (body req) = Some content ->
  insights_profile env (Some content) = inr response ->
  db_insert env (store w)
    (spec_document (db_get env (store w) (Some sid)) (Some sid) (Some content)
       (JSON_stringify env response) (toLocaleString_now env))
    (Some sid)
  = (None, store') ->
  db_get env store' (Some sid)
  = GetFound
      (spec_document (db_get env (store w) (Some sid)) (Some sid) (Some content)
         (JSON_stringify env response) (toLocaleString_now env)) ->
  JSON_stringify env response <> "" ->
  JSON_parse env (JSON_stringify env response) = Done response ->
  query_sessionId req2 = Some sid ->
  setContent env w req
  = Done ({| status := 200; reply_body := JsonEmpty |}, mkWorld store' (console w))
  /\ getDescription env (mkWorld store' (console w)) req2
     = Done ({| status := 200;
                reply_body :=
                  JsonItems
                    (parseDescriptionFromWatsonResponse (appEnv_url env) sid response) |},
             mkWorld store' (console w)).
Proof.
  intros Hs Hc Hp Hi Hg Hne Hparse Hs2. split.
  - rewrite (setContent_valid env w req sid content Hs Hc), Hp. cbv zeta.
    now rewrite Hi.
  - unfold getDescription.
    erewrite (getLatestInsightsJSON_found (mkWorld store' (console w)) req2 _
                (JSON_stringify env response));
      [| cbn [store]; rewrite Hs2; exact Hg
       | now destruct (db_get env (store w) (Some sid))
       | exact Hne].
    rewrite Hparse. cbn [bind]. unfold getSessionIDUnchecked. now rewrite Hs2.
Qed.

(** Every item [/getDescription] lists can be charted: a [/getGraph]
    request for the item's id in the same session never gets the 404 page.
    It gets the chart page, or runs into the TypeError of a resolved node
    without [children]. *)
Theorem listed_ids_are_never_404 (w w1 : World S) (req : Request) (items : list Item)
    (item : Item) (id : string) (anybody : JSON) :
  getDescription env w req = Done ({| status := 200; reply_body := JsonItems items |}, w1) ->
  In item items ->
  item_id item = JS.VString id ->
  getGraph_handler env w1 (mkRequest (query_sessionId req) anybody id)
  = Uncaught TypeError
  \/ exists data,
       getGraph_handler env w1 (mkRequest (query_sessionId req) anybody id)
       = Done ({| status := 200; reply_body := ChartPage data |}, w1).
Proof.
  intros Hd Hin Hid. unfold getDescription in Hd.
  destruct (getLatestInsightsJSON env w req) as [[[insights|] w0]|e] eqn:HL;
    cbn [bind] in Hd; try discriminate.
  injection Hd as Hitems <-.
  pose proof HL as HL'. apply getLatestInsightsJSON_some in HL'. destruct HL' as [-> _].
  unfold getGraph_handler.
  rewrite (getLatestInsightsJSON_session w req _) by reflexivity.
  rewrite HL. cbn [bind params_watsonId].
  subst items. rewrite flatten_displayed in Hin.
  apply in_map_iff in Hin. destruct Hin as (entry & <- & Hin).
  destruct (annotate_kept (sessionID_text (getSessionIDUnchecked req))
              (emitted (appEnv_url env) entry)) as (Hkept & _).
  rewrite Hkept in Hid. unfold emitted in Hid. rewrite createChild_id in Hid.
  injection Hid as Hid.
  unfold spec_displayed in Hin. apply filter_In in Hin. destruct Hin as [Hin _].
  pose proof (getChildWithId_of_present id _ entry Hin Hid) as Hfound.
  unfold getGraph.
  destruct (getChildWithId id (node_children (tree insights))) as [child|];
    [|now elim Hfound].
  destruct (createChartData child) as [data|]; [right; now exists data | now left].
Qed.

End ReadingHandlers.

(** ** The handlers run on the store in memory *)



Lemma setContent_success_persists_witness :
  exists sid content response,
    query_sessionId post_request = Some sid
    /\ spec_content (body post_request) = Some content
    /\ insights_profile (memory_env sample_profile) (Some content) = inr response
    /\ db_insert (memory_env sample_profile) (store empty_world)
         (spec_document (db_get (memory_env sample_profile) (store empty_world) (Some sid))
            (Some sid) (Some content)
            (JSON_stringify (memory_env sample_profile) response)
            (toLocaleString_now (memory_env sample_profile)))
         (Some sid)
       = (None, store world_after_post)
    /\ console world_after_post = console empty_world.
Proof.
  exact (setContent_success_persists (memory_env sample_profile) empty_world
           world_after_post post_request sendPostSuccess eq_refl eq_refl).
Defined.

Lemma handlers_without_stored_profile_witness :
  exists w',
    store w' = store empty_world
    /\ getDescription (memory_env sample_profile) empty_world (get_request "needs")
       = Done ({| status := 400;
                  reply_body :=
                    JsonMessage "Error" (JS.VString "No content defined for this session") |},
               w')
    /\ getGraph_handler (memory_env sample_profile) empty_world (get_request "needs")
       = Done ({| status := 404; reply_body := NotFoundPage |}, w').
Proof.
  exact (handlers_without_stored_profile (memory_env sample_profile) empty_world
           (get_request "needs") I).
Defined.

Lemma submitted_profile_is_described_witness :
  setContent (memory_env sample_profile) empty_world post_request
  = Done ({| status := 200; reply_body := JsonEmpty |}, world_after_post)
  /\ getDescription (memory_env sample_profile) world_after_post (get_request "needs")
     = Done ({| status := 200;
                reply_body :=
                  JsonItems
                    (parseDescriptionFromWatsonResponse "http://host" "s1" sample_profile) |},
             world_after_post).
Proof.
  apply (submitted_profile_is_described (memory_env sample_profile) empty_world
           post_request (get_request "needs") "s1" (JString "I like long walks.")
           sample_profile (store world_after_post));
    try reflexivity.
  discriminate.
Defined.

Lemma listed_ids_are_never_404_witness :
  getGraph_handler (memory_env sample_profile) world_after_post
    (mkRequest (Some "s1") JNull "personality")
  = Uncaught TypeError
  \/ exists data,
       getGraph_handler (memory_env sample_profile) world_after_post
         (mkRequest (Some "s1") JNull "personality")
       = Done ({| status := 200; reply_body := ChartPage data |}, world_after_post).
Proof.
  apply (listed_ids_are_never_404 (memory_env sample_profile) world_after_post
           world_after_post (get_request "")
           (parseDescriptionFromWatsonResponse "http://host" "s1" sample_profile)
           (annotate "s1" (emitted "http://host" (personality, 1%nat)))
           "personality" JNull);
    [reflexivity | vm_compute; left; reflexivity | reflexivity].
Defined.

Example getGraph_needs_after_post :
  match getGraph_handler (memory_env sample_profile) world_after_post (get_request "needs") with
  | Done (reply, _) =>
      (status reply,
       match reply_body reply with
       | ChartPage data => map slice_label data
       | _ => []
       end)
  | Uncaught _ => (0%nat, [])
  end
  = (200%nat, [JS.VString "Liberty"; JS.VString "Love"; JS.VString "Ideal"]).
Proof. vm_compute. reflexivity. Qed.

Example getGraph_leaf_after_post :
  getGraph_handler (memory_env sample_profile) world_after_post
    (get_request "Adventurousness")
  = Uncaught TypeError.
Proof. reflexivity. Qed.

Example getGraph_unknown_after_post :
  getGraph_handler (memory_env sample_profile) world_after_post (get_request "Prudence")
  = Done ({| status := 404; reply_body := NotFoundPage |}, world_after_post).
Proof. reflexivity. Qed.

Example setContent_without_session :
  setContent (memory_env sample_profile) empty_world (mkRequest None JNull "")
  = Done ({| status := 400;
             reply_body := JsonMessage "Error" (JS.VString "Invalid session ID!") |},
          empty_world).
Proof. reflexivity. Qed.



Example setContent_service_unreachable :
  setContent unreachable_service_env empty_world post_request
  = Done ({| status := 400;
             reply_body :=
               JsonMessage "Error" (JS.VString "Could not fetch Personality Insights") |},
          mkWorld [] [LogFetchFailed (mkErr "service unreachable")]).
Proof. reflexivity. Qed.
